(** * OptimalMastPlanner: the analytical core, embedded and verified

    The plugin's three computations are embedded from
    [OptimalMastPlanner.py]:

    - [aggregate_process_trix_file]: reading of the TRIX export, identifier
      assignment and the adjusted RSS uncertainty;
    - [process_best_single_met_mast]: the single-mast lookup;
    - [process_best_two_met_mast]: the exhaustive search of the best pair.

    Numbers are IEEE-754 binary64 values, taken from the Standard Library's
    executable specification of floating-point arithmetic. The files and
    map layers the plugin writes, and the grouped averages of the
    aggregator, are left out. *)

From Stdlib Require Import ZArith List String Ascii Bool Arith Lia.
From Stdlib Require Import Sorting.Sorted DecimalString DecimalNat.
From Stdlib Require Import Floats.SpecFloat.
Import ListNotations.

Local Open Scope string_scope.
Local Open Scope list_scope.

(** ** Binary64 arithmetic *)

Module Float64.

Definition float64 := spec_float.

Definition prec : Z := 53.
Definition emax : Z := 1024.

Definition nan : float64 := S754_nan.
Definition inf : float64 := S754_infinity false.
Definition zero : float64 := S754_zero false.

Definition add : float64 -> float64 -> float64 := SFadd prec emax.
Definition mul : float64 -> float64 -> float64 := SFmul prec emax.
Definition div : float64 -> float64 -> float64 := SFdiv prec emax.
Definition sqrt : float64 -> float64 := SFsqrt prec emax.

Definition ltb : float64 -> float64 -> bool := SFltb.
Definition leb : float64 -> float64 -> bool := SFleb.

(** An integer literal, or an [int] operand promoted to [float]. *)
Definition of_Z (z : Z) : float64 := binary_normalize prec emax z 0 false.

Definition of_nat (n : nat) : float64 := of_Z (Z.of_nat n).

Definition is_nan (x : float64) : bool :=
  match x with S754_nan => true | _ => false end.

(** Neither an infinity nor a NaN. *)
Definition is_finite (x : float64) : bool :=
  match x with S754_zero _ | S754_finite _ _ _ => true | _ => false end.


(** [x ** 2] on a float column is the product of [x] with itself. *)
Definition square (x : float64) : float64 := mul x x.

Definition eq_dec (x y : float64) : {x = y} + {x <> y}.
Proof.
  decide equality; try apply Bool.bool_dec;
    try apply Z.eq_dec; apply Pos.eq_dec.
Defined.

End Float64.

Import Float64.

(** ** Outcomes of a run

    A Python call either returns a value or raises; an exception is
    recorded by the name of its class. *)

Inductive result (A : Type) : Type :=
| Ok (a : A)
| Raise (exn : string).
Arguments Ok {A} a.
Arguments Raise {A} exn.

Definition bind {A B} (m : result A) (k : A -> result B) : result B :=
  match m with
  | Ok a => k a
  | Raise e => Raise e
  end.

Notation "x <- m ;; k" := (bind m (fun x => k))
  (at level 61, m at next level, right associativity).

(** ** Generic table operations (pandas) *)

Section Tables.
Context {A : Type}.
Variable eq_dec : forall x y : A, {x = y} + {x <> y}.

(** [drop_duplicates()] with the default [keep='first']: a value is kept
    the first time it shows up, the order of the kept values is the order
    of the table. *)
Definition keep_first (acc : list A) (x : A) : list A :=
  if in_dec eq_dec x acc then acc else acc ++ [x].

Definition drop_duplicates (l : list A) : list A :=
  fold_left keep_first l [].

(** Position of a label in an index (its first occurrence). *)
Fixpoint index_of (x : A) (l : list A) : option nat :=
  match l with
  | [] => None
  | y :: t =>
      if eq_dec x y then Some 0
      else option_map S (index_of x t)
  end.

(** [pd.merge(left, right, on=key, how='left')]: every left row, in
    order, once per matching right row, and once with a missing value
    when nothing matches. *)
Definition merge_left {R V : Type} (key : R -> A)
    (left : list R) (right : list (A * V)) : list (R * option V) :=
  flat_map
    (fun r =>
       match filter (fun kv => if eq_dec (key r) (fst kv) then true else false) right with
       | [] => [(r, None)]
       | ms => map (fun kv => (r, Some (snd kv))) ms
       end)
    left.
End Tables.

(** ** The measurement table *)

(** A cell of a column as the tabular decoder leaves it: a number (an empty
    field is the number NaN) or a text that is not a number. *)
Inductive cell : Type :=
| Number (v : float64)
| Text (s : string).

Definition cell_eq_dec (x y : cell) : {x = y} + {x <> y}.
Proof.
  decide equality; [apply Float64.eq_dec | apply string_dec].
Defined.

(** The twelve columns the processing reads. *)
Record row : Type := {
  wtg_x : cell;                (* WTG X [m] *)
  wtg_y : cell;                (* WTG Y [m] *)
  wtg_z : cell;                (* WTG Z [m] *)
  wtg_rix : cell;              (* WTG RIX [%] *)
  ref_x : cell;                (* Reference Point X [m] *)
  ref_y : cell;                (* Reference Point Y [m] *)
  ref_z : cell;                (* Reference Point Z [m] *)
  ref_rix : cell;              (* Reference RIX [%] *)
  horiz_uc_horiz : cell;       (* Horiz. Uc increase due to horiz. distance [%] *)
  horizontal_distance : cell;  (* Horizontal Distance [m] *)
  horiz_uc_vert : cell;        (* Horiz. Uc increase due to vert. distance [%] *)
  vertical_uc : cell           (* Vertical uncertainty increase [%] *)
}.

Definition key3 : Type := cell * cell * cell.
Definition key4 : Type := cell * cell * cell * cell.

Definition key3_eq_dec (x y : key3) : {x = y} + {x <> y}.
Proof. repeat decide equality; try apply Float64.eq_dec. Defined.

Definition key4_eq_dec (x y : key4) : {x = y} + {x <> y}.
Proof. repeat decide equality; try apply Float64.eq_dec. Defined.

(** [turbine_cols] and [ref_cols] of a row. *)
Definition turbine_cols (r : row) : key4 := (wtg_x r, wtg_y r, wtg_z r, wtg_rix r).
Definition ref_cols (r : row) : key4 := (ref_x r, ref_y r, ref_z r, ref_rix r).

(** ['{:02d}'.format(n)]: decimal digits, padded with zeros to a width of
    at least two. *)
Definition format_02d (n : nat) : string :=
  let s := NilEmpty.string_of_uint (Nat.to_uint n) in
  if Nat.ltb (String.length s) 2 then ("0" ++ s)%string else s.

(** [[prefix + '{:02d}'.format(i+1) for i in range(n)]] *)
Definition make_ids (prefix : string) (n : nat) : list string :=
  map (fun i => (prefix ++ format_02d (i + 1))%string) (seq 0 n).

(** [pd.to_numeric(col, errors='coerce')] *)
Definition to_numeric (c : cell) : float64 :=
  match c with
  | Number v => v
  | Text _ => nan
  end.

(** [col.fillna(d)] *)
Definition fillna (d : float64) (x : float64) : float64 :=
  if is_nan x then d else x.

(** A row of [self.df_data] once [aggregate_process_trix_file] is done:
    the columns as read, the two identifiers, the four uncertainty columns
    as they stand after coercion and filling, and the three adjusted
    columns. *)
Record enriched : Type := {
  source : row;
  turbine_id : option string;
  mast_id : option string;
  horiz_uc_horiz_pct : float64;
  horizontal_distance_m : float64;
  horiz_uc_vert_pct : float64;
  vertical_uc_pct : float64;
  adj_horiz_uc_horiz_dist : float64;
  adj_sum_horiz_uc : float64;
  adj_RSS_uncertainty : float64
}.

Module Aggregator.

(** The column assignments of [aggregate_process_trix_file] after the two
    merges, applied to one row of the table. *)
Definition enrich (rm : row * option string * option string) : enriched :=
  let '(r, tid, mid) := rm in
  (* pd.to_numeric(..., errors='coerce') on the four columns *)
  let huh := to_numeric (horiz_uc_horiz r) in
  let hd := to_numeric (horizontal_distance r) in
  let huv := to_numeric (horiz_uc_vert r) in
  let vu := to_numeric (vertical_uc r) in
  (* fillna(100) on the two horizontal columns *)
  let huh := fillna (of_Z 100) huh in
  let huv := fillna (of_Z 100) huv in
  let adj1 := add huh (div hd (of_Z 1000)) in
  let adj2 := add adj1 huv in
  let adj3 := sqrt (add (square adj2) (square vu)) in
  {| source := r; turbine_id := tid; mast_id := mid;
     horiz_uc_horiz_pct := huh; horizontal_distance_m := hd;
     horiz_uc_vert_pct := huv; vertical_uc_pct := vu;
     adj_horiz_uc_horiz_dist := adj1; adj_sum_horiz_uc := adj2;
     adj_RSS_uncertainty := adj3 |}.

Record tables : Type := {
  df_data : list enriched;
  unique_turbines : list (key4 * string);
  unique_masts : list (key4 * string)
}.

(** [aggregate_process_trix_file] from the decoded table on. *)
Definition aggregate (df : list row) : tables :=
  let ut := drop_duplicates key4_eq_dec (map turbine_cols df) in
  let ut := combine ut (make_ids "WTG_" (List.length ut)) in
  let df1 := merge_left key4_eq_dec turbine_cols df ut in
  let um := drop_duplicates key4_eq_dec (map (fun rt => ref_cols (fst rt)) df1) in
  let um := combine um (make_ids "Mast_" (List.length um)) in
  let df2 := merge_left key4_eq_dec (fun rt => ref_cols (fst rt)) df1 um in
  {| df_data := map enrich df2; unique_turbines := ut; unique_masts := um |}.

End Aggregator.

(** ** Reading the TRIX export *)

Module Parser.

Definition tab : ascii := ascii_of_nat 9.
Definition space : ascii := " "%char.

Definition is_space (c : ascii) : bool :=
  let n := nat_of_ascii c in
  orb (Nat.eqb n 32) (andb (Nat.leb 9 n) (Nat.leb n 13)).

(** [line.startswith(('Assumptions:', '*'))] *)
Definition is_stop (line : string) : bool :=
  orb (String.prefix "Assumptions:" line) (String.prefix "*" line).

(** The [readline] loop: the lines of the file up to the first marker or
    to the end of the file. *)
Fixpoint data_lines (file : list string) : list string :=
  match file with
  | [] => []
  | line :: rest => if is_stop line then [] else line :: data_lines rest
  end.

(** Fields of a line, separated by [sep]. *)
Fixpoint split (sep : ascii) (s : string) : list string :=
  match s with
  | EmptyString => [EmptyString]
  | String c rest =>
      if Ascii.eqb c sep then EmptyString :: split sep rest
      else match split sep rest with
           | [] => [String c EmptyString]
           | f :: fs => String c f :: fs
           end
  end.

Fixpoint lstrip (s : string) : string :=
  match s with
  | EmptyString => EmptyString
  | String c rest => if is_space c then lstrip rest else s
  end.

Fixpoint rstrip (s : string) : string :=
  match s with
  | EmptyString => EmptyString
  | String c rest =>
      match rstrip rest with
      | EmptyString => if is_space c then EmptyString else String c EmptyString
      | r => String c r
      end
  end.

(** [str.strip()] *)
Definition strip (s : string) : string := rstrip (lstrip s).

(** The decoded table: the header names and the fields of each record. *)
Record frame : Type := {
  columns : list string;
  records : list (list string)
}.

Definition is_blank (line : string) : bool :=
  match line with EmptyString => true | _ => false end.

(** [pd.read_csv(io.StringIO(text), sep='\t')]: blank lines are skipped,
    the first line left names the columns and a text without any line
    raises [EmptyDataError]. Records are expected to have no more fields
    than the header; a longer one is taken to raise [ParserError]. A line
    is given without its end-of-line character. *)
Definition read_csv (lines : list string) : result frame :=
  match filter (fun l => negb (is_blank l)) lines with
  | [] => Raise "EmptyDataError"
  | header :: body =>
      let cols := split tab header in
      let recs := map (split tab) body in
      if forallb (fun r => Nat.leb (List.length r) (List.length cols)) recs
      then Ok {| columns := cols; records := recs |}
      else Raise "ParserError"
  end.

(** [df.columns = df.columns.str.strip()] *)
Definition strip_columns (df : frame) : frame :=
  {| columns := map strip (columns df); records := records df |}.

Definition turbine_col_names : list string :=
  ["WTG X [m]"; "WTG Y [m]"; "WTG Z [m]"; "WTG RIX [%]"].

Definition ref_col_names : list string :=
  ["Reference Point X [m]"; "Reference Point Y [m]";
   "Reference Point Z [m]"; "Reference RIX [%]"].

Definition cols_to_numeric : list string :=
  ["Horiz. Uc increase due to horiz. distance [%]";
   "Horizontal Distance [m]";
   "Horiz. Uc increase due to vert. distance [%]";
   "Vertical uncertainty increase [%]"].

Definition has_column (df : frame) (name : string) : bool :=
  if in_dec string_dec name (columns df) then true else false.

(** [df[names]]: selecting a column that is not there raises [KeyError]. *)
Definition select (df : frame) (names : list string) : result unit :=
  if forallb (has_column df) names then Ok tt else Raise "KeyError".

Section Decode.
(** How the decoder reads the text of one field: the number it spells,
    or the text itself. *)
Variable decode : string -> cell.

(** The cell of a record under a column; a record shorter than the
    header is completed with missing values. *)
Definition field (df : frame) (name : string) (rec : list string) : cell :=
  match index_of string_dec name (columns df) with
  | Some i =>
      match nth_error rec i with
      | Some s => decode s
      | None => Number nan
      end
  | None => Number nan
  end.

Definition row_of (df : frame) (rec : list string) : row :=
  {| wtg_x := field df "WTG X [m]" rec;
     wtg_y := field df "WTG Y [m]" rec;
     wtg_z := field df "WTG Z [m]" rec;
     wtg_rix := field df "WTG RIX [%]" rec;
     ref_x := field df "Reference Point X [m]" rec;
     ref_y := field df "Reference Point Y [m]" rec;
     ref_z := field df "Reference Point Z [m]" rec;
     ref_rix := field df "Reference RIX [%]" rec;
     horiz_uc_horiz := field df "Horiz. Uc increase due to horiz. distance [%]" rec;
     horizontal_distance := field df "Horizontal Distance [m]" rec;
     horiz_uc_vert := field df "Horiz. Uc increase due to vert. distance [%]" rec;
     vertical_uc := field df "Vertical uncertainty increase [%]" rec |}.

(** [aggregate_process_trix_file], from the lines of the input file to
    the tables it writes. The three column selections stand where the
    source first reads [turbine_cols], [ref_cols] and the columns it
    makes numeric. *)
Definition aggregate_process_trix_file (file : list string)
  : result Aggregator.tables :=
  df <- read_csv (data_lines file) ;;
  let df := strip_columns df in
  _ <- select df turbine_col_names ;;
  _ <- select df ref_col_names ;;
  _ <- select df cols_to_numeric ;;
  Ok (Aggregator.aggregate (map (row_of df) (records df))).
End Decode.

End Parser.

(** ** Selection of the best mast and of the best pair of masts *)

Module Selector.

(** *** Pair mode: [process_best_two_met_mast] *)

Definition wtg_xyz (e : enriched) : key3 :=
  (wtg_x (source e), wtg_y (source e), wtg_z (source e)).

Definition ref_xyz (e : enriched) : key3 :=
  (ref_x (source e), ref_y (source e), ref_z (source e)).

(** A row of [unique_masts]: [ref_cols] and [mast_id]. *)
Definition mast_record : Type := key4 * option string.

Definition mast_record_eq_dec (x y : mast_record) : {x = y} + {x <> y}.
Proof.
  decide equality;
    [ decide equality; apply string_dec | apply key4_eq_dec ].
Defined.

Definition ref_id_cols (e : enriched) : mast_record :=
  (ref_cols (source e), mast_id e).

Definition matrix : Type := list (list float64).

Fixpoint update {A} (l : list A) (n : nat) (f : A -> A) : list A :=
  match l, n with
  | [], _ => []
  | x :: t, 0 => f x :: t
  | x :: t, S k => x :: update t k f
  end.

(** A frame built from an index and columns only: every cell is NaN. *)
Definition empty_matrix (nrows ncols : nat) : matrix :=
  repeat (repeat nan ncols) nrows.

(** [rss_matrix.at[turbine, mast] = v]; both labels are in the index by
    construction. *)
Definition set_at (turbines masts : list key3) (m : matrix)
    (turbine mast : key3) (v : float64) : matrix :=
  match index_of key3_eq_dec turbine turbines,
        index_of key3_eq_dec mast masts with
  | Some i, Some j => update m i (fun r => update r j (fun _ => v))
  | _, _ => m
  end.

Definition fill_matrix (turbines masts : list key3) (df : list enriched)
  : matrix :=
  fold_left
    (fun m e => set_at turbines masts m (wtg_xyz e) (ref_xyz e)
                  (adj_RSS_uncertainty e))
    df (empty_matrix (List.length turbines) (List.length masts)).

(** [rss_values[:, j]] *)
Definition column (m : matrix) (j : nat) : list float64 :=
  map (fun r => nth j r nan) m.

(** The frame is created without data, so its cells hold objects, and on
    objects [np.minimum] picks [a if a <= b else b]. *)
Definition minimum (a b : float64) : float64 :=
  if leb a b then a else b.

Definition np_minimum (u v : list float64) : list float64 :=
  map (fun p => minimum (fst p) (snd p)) (combine u v).

(** [np.sum] on objects adds from left to right. *)
Definition np_sum (l : list float64) : float64 :=
  match l with
  | [] => zero
  | x :: t => fold_left add t x
  end.

(** [combinations(range(n), 2)] *)
Definition combinations2 (n : nat) : list (nat * nat) :=
  flat_map (fun i => map (fun j => (i, j)) (seq (S i) (n - S i))) (seq 0 n).

Definition pair_min_rss (m : matrix) (ij : nat * nat) : list float64 :=
  np_minimum (column m (fst ij)) (column m (snd ij)).

Definition total_rss_of (m : matrix) (ij : nat * nat) : float64 :=
  np_sum (pair_min_rss m ij).

Record search : Type := {
  best_pair : option (nat * nat);
  best_total : float64;
  best_min_rss : option (list float64)
}.

Definition search_start : search :=
  {| best_pair := None; best_total := inf; best_min_rss := None |}.

Definition search_step (m : matrix) (st : search) (ij : nat * nat) : search :=
  let min_rss := pair_min_rss m ij in
  let total_rss := np_sum min_rss in
  if ltb total_rss (best_total st)
  then {| best_pair := Some ij; best_total := total_rss;
          best_min_rss := Some min_rss |}
  else st.

Definition search_pairs (m : matrix) (nmasts : nat) : search :=
  fold_left (search_step m) (combinations2 nmasts) search_start.

(** [==] between two cells. *)
Definition cell_eqb (a b : cell) : bool :=
  match a, b with
  | Number x, Number y => SFeqb x y
  | Text s, Text t => String.eqb s t
  | _, _ => false
  end.

(** [get_mast_id]: the identifier of the first row of [unique_masts] at
    these coordinates, the empty text when there is none. *)
Definition get_mast_id (unique_masts : list mast_record) (coords : key3)
  : option string :=
  let '(cx, cy, cz) := coords in
  match filter (fun um =>
                  let '(x, y, z, _) := fst um in
                  andb (andb (cell_eqb x cx) (cell_eqb y cy)) (cell_eqb z cz))
               unique_masts with
  | [] => Some ""
  | um :: _ => snd um
  end.

(** A point feature of the output layer. *)
Record feature : Type := {
  f_name : option string;
  f_x : cell;
  f_y : cell;
  f_z : cell;
  pair_total_rss : float64
}.

(** A line of the [_all_pairs.csv] file. *)
Record pair_line : Type := {
  mast_id_1 : option string;
  mast_id_2 : option string;
  total_rss : float64;
  avg_rss : float64;
  is_best : bool
}.

Record pair_output : Type := {
  features : list feature;
  all_pairs : option (list pair_line)
}.

Definition pair_eqb (p q : nat * nat) : bool :=
  andb (Nat.eqb (fst p) (fst q)) (Nat.eqb (snd p) (snd q)).

(** [total / n if n > 0 else float('nan')] *)
Definition mean_over (total : float64) (n : nat) : float64 :=
  if Nat.ltb 0 n then div total (of_nat n) else nan.

Definition make_feature (nm : option string) (coords : key3)
    (v : float64) : feature :=
  let '(cx, cy, cz) := coords in
  {| f_name := nm; f_x := cx; f_y := cy; f_z := cz; pair_total_rss := v |}.

(** The tables [process_best_two_met_mast] derives from [self.df_data]:
    the distinct turbine and mast coordinates, the masts with their
    identifiers, and the filled matrix as an array. *)
Definition turbines (df : list enriched) : list key3 :=
  drop_duplicates key3_eq_dec (map wtg_xyz df).

Definition masts (df : list enriched) : list key3 :=
  drop_duplicates key3_eq_dec (map ref_xyz df).

Definition unique_masts (df : list enriched) : list mast_record :=
  drop_duplicates mast_record_eq_dec (map ref_id_cols df).

Definition rss_values (df : list enriched) : matrix :=
  fill_matrix (turbines df) (masts df) df.

Definition no_coords : key3 := (Number nan, Number nan, Number nan).

(** The lines of the [_all_pairs.csv] file. *)
Definition all_pairs_csv (df : list enriched) (best : nat * nat)
  : list pair_line :=
  let num_turbines := List.length (turbines df) in
  map (fun ij =>
         let total := total_rss_of (rss_values df) ij in
         {| mast_id_1 := get_mast_id (unique_masts df) (nth (fst ij) (masts df) no_coords);
            mast_id_2 := get_mast_id (unique_masts df) (nth (snd ij) (masts df) no_coords);
            total_rss := total;
            avg_rss := mean_over total num_turbines;
            is_best := pair_eqb ij best |})
      (combinations2 (List.length (masts df))).

(** [process_best_two_met_mast]. [noerror] is what [save_as_shp]
    answers. *)
Definition process_best_two_met_mast (df : list enriched) (noerror : bool)
  : result pair_output :=
  let st := search_pairs (rss_values df) (List.length (masts df)) in
  match best_pair st with
  | None => Raise "TypeError"   (* best_pair[0] on None *)
  | Some (b0, b1) =>
      match nth_error (masts df) b0, nth_error (masts df) b1 with
      | Some mast1_coords, Some mast2_coords =>
          let mast_ids := [get_mast_id (unique_masts df) mast1_coords;
                           get_mast_id (unique_masts df) mast2_coords] in
          let pair_total :=
            mean_over (best_total st) (List.length (turbines df)) in
          let feats :=
            map (fun nc => make_feature (fst nc) (snd nc) pair_total)
                (combine mast_ids [mast1_coords; mast2_coords]) in
          Ok {| features := feats;
                all_pairs := if noerror
                             then Some (all_pairs_csv df (b0, b1))
                             else None |}
      | _, _ => Raise "IndexError"
      end
  end.

(** *** Single mode: [process_best_single_met_mast] *)

(** The table read from the grouped CSV file, column by column. *)
Definition table : Type := list (string * list cell).

Definition adj_col : string := "adj_RSS_uncertainty".
Definition legacy_col : string := "RSS of uncertainty increases [%]".

(** [name in data.columns] *)
Definition in_columns (nm : string) (data : table) : bool :=
  existsb (String.eqb nm) (map fst data).

(** [data[name]] *)
Fixpoint get_column (nm : string) (data : table) : result (list cell) :=
  match data with
  | [] => Raise "KeyError"
  | (n, vs) :: rest => if String.eqb nm n then Ok vs else get_column nm rest
  end.

(** The values of a numeric column; a text makes the comparison of
    [idxmin] fail. *)
Fixpoint numbers (vs : list cell) : result (list float64) :=
  match vs with
  | [] => Ok []
  | Number v :: rest => t <- numbers rest ;; Ok (v :: t)
  | Text _ :: _ => Raise "TypeError"
  end.

(** Scan for the first smallest value, NaN skipped. *)
Fixpoint argmin_from (best : option (nat * float64)) (i : nat)
    (l : list float64) : option (nat * float64) :=
  match l with
  | [] => best
  | v :: rest =>
      let best' :=
        if is_nan v then best
        else match best with
             | None => Some (i, v)
             | Some (_, b) => if ltb v b then Some (i, v) else best
             end in
      argmin_from best' (S i) rest
  end.

(** [col.idxmin()]: the label of the first occurrence of the minimum,
    NaN excluded; no value to compare raises [ValueError]. *)
Definition idxmin (vs : list cell) : result nat :=
  l <- numbers vs ;;
  match argmin_from None 0 l with
  | Some (i, _) => Ok i
  | None => Raise "ValueError"
  end.

(** [data.loc[i]] *)
Definition loc (data : table) (i : nat) : list (string * cell) :=
  map (fun c => (fst c, nth i (snd c) (Number nan))) data.

(** [row[name]] *)
Fixpoint get_item (nm : string) (r : list (string * cell)) : result cell :=
  match r with
  | [] => Raise "KeyError"
  | (n, v) :: rest => if String.eqb nm n then Ok v else get_item nm rest
  end.

Record single_output : Type := {
  point : cell * cell;
  attributes : list cell;
  rss_field : string
}.

Definition process_best_single_met_mast (data : table)
  : result single_output :=
  let rss_col := if in_columns adj_col data then adj_col else legacy_col in
  col <- get_column rss_col data ;;
  i <- idxmin col ;;
  let lowest_rss_row := loc data i in
  px <- get_item "Reference Point X [m]" lowest_rss_row ;;
  py <- get_item "Reference Point Y [m]" lowest_rss_row ;;
  pz <- get_item "Reference Point Z [m]" lowest_rss_row ;;
  rix <- get_item "Reference RIX [%]" lowest_rss_row ;;
  rss <- get_item rss_col lowest_rss_row ;;
  Ok {| point := (px, py);
        attributes := [px; py; pz; rix; rss];
        rss_field := rss_col |}.

End Selector.

(** ** The plugin around the computations

    The dialog callbacks and the helpers they call: the coordinate
    reference system derived from a city, the dispatch of the two
    selections, the guards of the main run, and the two layers built from
    the files of the aggregator. The object holds its state in attributes;
    a call takes the state and gives the state back, with the messages
    shown and the exception that ended it, if any. *)

Module Plugin.

Definition sub : float64 -> float64 -> float64 := SFsub prec emax.

(** [math.floor] of a float. *)
Definition floor (v : float64) : result Z :=
match v with
| S754_nan => Raise "ValueError"
| S754_infinity _ => Raise "OverflowError"
| S754_zero _ => Ok 0%Z
| S754_finite s m e => Ok (Z.shiftl (cond_Zopp s (Zpos m)) e)
end.

(** [f"{n:02d}"] of an integer: the sign counts in the width. *)
Definition format_02d_int (n : Z) : string :=
if (n <? 0)%Z
then ("-" ++ NilEmpty.string_of_uint (Nat.to_uint (Z.to_nat (- n))))%string
else format_02d (Z.to_nat n).

(** A row of [cities_by_country]; a name can be missing. *)
Record city_row : Type := {
country : option string;
city : option string;
lng : float64;
lat : float64
}.

Definition name_is (cell_ : option string) (s : string) : bool :=
match cell_ with
| Some t => String.eqb t s
| None => false
end.

(** [get_coordinates]: longitude and latitude of the first row of the
  table with this country and this city. *)
Definition get_coordinates (cities_by_country : list city_row)
  (country_name city_name : string) : option (float64 * float64) :=
match filter (fun r => andb (name_is (country r) country_name)
                            (name_is (city r) city_name))
             cities_by_country with
| [] => None
| r :: _ => Some (lng r, lat r)
end.

(** [update_cities]: the city column of the rows of the country, as
  handed to the list of the dialog. *)
Definition update_cities (cities_by_country : list city_row)
  (country_name : string) : list (option string) :=
map city (filter (fun r => name_is (country r) country_name) cities_by_country).

(** [get_utm_crs_from_lonlat] *)
Definition get_utm_crs_from_lonlat (lon lat_ : float64) (precision : Z)
: result (option string) :=
fl <- floor (div (add lon (of_Z 180)) (of_Z 6)) ;;
let zone_number := (fl + 1)%Z in
let code := fun zone : Z =>
  if leb zero lat_
  then ("EPSG:326" ++ format_02d_int zone)%string
  else ("EPSG:327" ++ format_02d_int zone)%string in
crs_code <-
  (if (5 <? precision)%Z then
     fl_lon <- floor lon ;;
     let longitude_decimal_part := sub lon (of_Z fl_lon) in
     if leb (of_Z 5) longitude_decimal_part
     then Ok (code (if ltb zero lon
                    then (zone_number + 1)%Z else (zone_number - 1)%Z))
     else Ok (code zone_number)
   else Ok (code zone_number)) ;;
if orb (ltb (of_Z 84) lat_) (ltb lat_ (of_Z (-80)))
then Ok None
else Ok (Some crs_code).

(** The dialog, as far as the callbacks read it. *)
Record dialog : Type := {
trix_file : string;
out_dir : string;
crs : string;            (* self.dlg.crs.crs().authid() *)
country_input : string;
city_input : string;
comboBox : string
}.

(** The state the callbacks read and write: attributes of the plugin, the
  names of the layers of the project, and the grouped table of the
  output directory, if that file is there. *)
Record session : Type := {
cities_by_country : list city_row;
output_direcory : option string;
df_data : option (list enriched);
layers : list string;
mast_points_data : option Selector.table;
noerror : bool           (* what save_as_shp answers *)
}.

Inductive event : Type :=
| display_warning (message : string)
| display_success (message : string)
| selected_single (o : Selector.single_output)
| selected_pair (o : Selector.pair_output)
| makedirs (path : string).

Record run : Type := {
final : session;
shown : list event;
raised : option string
}.

Definition done (s : session) (evs : list event) : run :=
{| final := s; shown := evs; raised := None |}.

Definition fails (s : session) (evs : list event) (exn : string) : run :=
{| final := s; shown := evs; raised := Some exn |}.

(** [get_crs]: subscripting the coordinates of an unknown city raises
  [TypeError]. *)
Definition get_crs (s : session) (d : dialog) : result (option string) :=
match get_coordinates (cities_by_country s) (country_input d) (city_input d) with
| None => Raise "TypeError"
| Some (x, y) => get_utm_crs_from_lonlat x y 5
end.

(** [layer_exists] *)
Definition layer_exists (s : session) (layer_name : string) : bool :=
existsb (fun n => String.eqb n layer_name) (layers s).

Definition add_layer (s : session) (layer_name : string) : session :=
{| cities_by_country := cities_by_country s;
   output_direcory := output_direcory s;
   df_data := df_data s;
   layers := layers s ++ [layer_name];
   mast_points_data := mast_points_data s;
   noerror := noerror s |}.

(** [str(crs) != ''], for the text of the dialog or the answer of
  [get_crs], which can be [None]. *)
Definition crs_given (c : option string) : bool :=
match c with
| Some t => negb (String.eqb t "")
| None => true
end.

(** [process_best_single_met_mast] with its [crs] argument: the layer is
  declared after the row has been found and its point made, and
  ['Point?crs=' + crs] raises [TypeError] on [None]. *)
Definition process_best_single_met_mast_crs (data : Selector.table)
  (c : option string) : result Selector.single_output :=
let rss_col := if Selector.in_columns Selector.adj_col data
               then Selector.adj_col else Selector.legacy_col in
col <- Selector.get_column rss_col data ;;
i <- Selector.idxmin col ;;
let lowest_rss_row := Selector.loc data i in
px <- Selector.get_item "Reference Point X [m]" lowest_rss_row ;;
py <- Selector.get_item "Reference Point Y [m]" lowest_rss_row ;;
_ <- match c with Some _ => Ok tt | None => Raise "TypeError" end ;;
pz <- Selector.get_item "Reference Point Z [m]" lowest_rss_row ;;
rix <- Selector.get_item "Reference RIX [%]" lowest_rss_row ;;
rss <- Selector.get_item rss_col lowest_rss_row ;;
Ok {| Selector.point := (px, py);
      Selector.attributes := [px; py; pz; rix; rss];
      Selector.rss_field := rss_col |}.

(** The two branches of [highlight_best_met] that run a selection. *)
Definition highlight_single (s : session) (c : option string) : run :=
if negb (layer_exists s "Optimal_single_mest_mast") then
  match mast_points_data s with
  | None => fails s [] "FileNotFoundError"
  | Some data =>
      match process_best_single_met_mast_crs data c with
      | Raise exn => fails s [] exn
      | Ok o =>
          done (add_layer s "Optimal_single_mest_mast")
               [selected_single o;
                display_success "Optimal_single_mest_mast Successfully Generated"]
      end
  end
else done s [display_warning "Optimal_single_mest_mast Already Generated"].

Definition highlight_pair (s : session) : run :=
if negb (layer_exists s "Optimal_pair_mest_mast") then
  match df_data s with
  | None => fails s [] "TypeError"   (* self.df_data[...] on None *)
  | Some df =>
      match Selector.process_best_two_met_mast df (noerror s) with
      | Raise exn => fails s [] exn
      | Ok o =>
          done (if noerror s then add_layer s "Optimal_pair_mest_mast" else s)
               [selected_pair o;
                display_success "Optimal_pair_mest_mast Successfully Generated"]
      end
  end
else done s [display_warning "Optimal_pair_mest_mast Already Generated"].

(** [highlight_best_met] *)
Definition highlight_best_met (s : session) (d : dialog) : run :=
match output_direcory s with
| None => fails s [] "TypeError"   (* os.path.join on None *)
| Some _ =>
    if String.eqb (crs d) "" then
      let resolved :=
        if orb (String.eqb (country_input d) "") (String.eqb (city_input d) "")
        then Ok (Some (crs d),
                 [display_warning "Specify Project Country/City OR CRS"])
        else c <- get_crs s d ;; Ok (c, []) in
      match resolved with
      | Raise exn => fails s [] exn
      | Ok (c, evs) =>
          if crs_given c then
            let r :=
              if String.eqb (comboBox d) "Single" then highlight_single s c
              else if String.eqb (comboBox d) "Pair" then highlight_pair s
              else done s [display_warning
                             "Select an option for optimal Mest Mast"] in
            {| final := final r; shown := evs ++ shown r; raised := raised r |}
          else done s evs
      end
    else done s []
end.

Section MainProcess.
(** The clock, the file system and the block of processing steps that
  [main_process] runs once its guards are passed. *)
Variable current_datetime : string.
Variable path_join : string -> string -> string.
Variable path_exists : string -> bool.
Variable processing : session -> option string -> run.

Definition set_output_direcory (s : session) (path : string) : session :=
{| cities_by_country := cities_by_country s;
   output_direcory := Some path;
   df_data := df_data s;
   layers := layers s;
   mast_points_data := mast_points_data s;
   noerror := noerror s |}.

(** [main_process], down to the call of the processing steps. *)
Definition main_process (s : session) (d : dialog) : run :=
if negb (String.eqb (trix_file d) "") then
  if negb (String.eqb (out_dir d) "") then
    let dir := path_join (out_dir d)
                 ("met_mast_process_results_" ++ current_datetime)%string in
    let s := set_output_direcory s dir in
    let resolved :=
      if String.eqb (crs d) "" then
        if orb (String.eqb (country_input d) "") (String.eqb (city_input d) "")
        then Ok (Some (crs d),
                 [display_warning "Specify Project City OR CRS"])
        else c <- get_crs s d ;; Ok (c, [])
      else Ok (Some (crs d), []) in
    match resolved with
    | Raise exn => fails s [] exn
    | Ok (c, evs) =>
        if crs_given c then
          if negb (path_exists dir) then
            let r := processing s c in
            {| final := final r;
               shown := evs ++ makedirs dir :: shown r;
               raised := raised r |}
          else done s evs
        else done s evs
    end
  else done s [display_warning "Please Choose Output Directory"]
else done s [display_warning "Please Choose a TRIX File"].
End MainProcess.

Section Layers.
(** [float(text)] on a text that is not one pandas reads as a number. *)
Variable py_float : string -> option float64.

(** [float(row[name])] on a field of a file written by [to_csv]: a
  number reads back as itself, NaN is written as the empty text, which
  is not a float. *)
Definition float_of_field (c : cell) : result float64 :=
match c with
| Number v => if is_nan v then Raise "ValueError" else Ok v
| Text t =>
    match py_float t with
    | Some v => Ok v
    | None => Raise "ValueError"
    end
end.

Record turbine : Type := {
t_x : float64;
t_y : float64;
t_z : float64;
t_rix : float64
}.

Record turbine_feature : Type := {
tf_id : nat;
x_coord : float64;
y_coord : float64;
elevation : float64;
tf_rix : float64;
tf_turbine_id : string
}.

Fixpoint read_turbines (rows : list key4) : result (list turbine) :=
match rows with
| [] => Ok []
| (cx, cy, cz, crix) :: rest =>
    x <- float_of_field cx ;;
    y <- float_of_field cy ;;
    z <- float_of_field cz ;;
    rix <- float_of_field crix ;;
    ts <- read_turbines rest ;;
    Ok ({| t_x := x; t_y := y; t_z := z; t_rix := rix |} :: ts)
end.

(** [enumerate(turbines, start)] into features. *)
Fixpoint turbine_features (idx : nat) (ts : list turbine)
: list turbine_feature :=
match ts with
| [] => []
| t :: rest =>
    {| tf_id := idx; x_coord := t_x t; y_coord := t_y t;
       elevation := t_z t; tf_rix := t_rix t;
       tf_turbine_id := ("WTG_" ++ format_02d idx)%string |}
    :: turbine_features (S idx) rest
end.

(** [create_turbine_shapefile], on the rows of the turbine file: the
  features handed to the layer. *)
Definition create_turbine_shapefile (rows : list key4)
: result (list turbine_feature) :=
ts <- read_turbines rows ;;
Ok (turbine_features 1 ts).

(** The number of records of a table read from a file. *)
Definition n_rows (data : Selector.table) : nat :=
match data with
| [] => 0
| (_, vs) :: _ => List.length vs
end.

Definition mast_feature (data : Selector.table) (i : nat)
: result (list float64) :=
let row_ := Selector.loc data i in
x <- (c <- Selector.get_item "Reference Point X [m]" row_ ;; float_of_field c) ;;
y <- (c <- Selector.get_item "Reference Point Y [m]" row_ ;; float_of_field c) ;;
z <- (c <- Selector.get_item "Reference Point Z [m]" row_ ;; float_of_field c) ;;
rix <- (c <- Selector.get_item "Reference RIX [%]" row_ ;; float_of_field c) ;;
uncertainty <- (c <- Selector.get_item "adj_RSS_uncertainty" row_ ;;
                float_of_field c) ;;
Ok [x; y; z; rix; uncertainty].

Fixpoint mast_features (data : Selector.table) (rows : list nat)
: result (list (list float64)) :=
match rows with
| [] => Ok []
| i :: rest =>
    f <- mast_feature data i ;;
    fs <- mast_features data rest ;;
    Ok (f :: fs)
end.

(** [create_met_mast_layer], on the table of the grouped file: the
  attributes of the features handed to the layer. The layer is
  declared first, and ["Point?crs=" + crs] raises [TypeError] on
  [None]. *)
Definition create_met_mast_layer (data : Selector.table) (c : option string)
: result (list (list float64)) :=
match c with
| None => Raise "TypeError"
| Some _ => mast_features data (seq 0 (n_rows data))
end.
End Layers.

End Plugin.

(** * Specification

    The notions the properties below are stated with: the order of
    binary64 values, first-occurrence order, the formulas of the data model
    in the words of the specification, and sample tables. *)

Local Open Scope Z_scope.

(** The place of a value in the order: its class, then exponent and
    mantissa. NaN has none. *)
Definition order_key (x : float64) : option (Z * Z * Z) :=
  match x with
  | S754_nan => None
  | S754_infinity true => Some (-2, 0, 0)
  | S754_infinity false => Some (2, 0, 0)
  | S754_zero _ => Some (0, 0, 0)
  | S754_finite false m e => Some (1, e, Zpos m)
  | S754_finite true m e => Some (-1, - e, Zneg m)
  end.

(** Lexicographic comparison of two triples. *)
Definition lex_compare (a b : Z * Z * Z) : comparison :=
  let '(a1, a2, a3) := a in
  let '(b1, b2, b3) := b in
  match a1 ?= b1 with
  | Eq => match a2 ?= b2 with Eq => a3 ?= b3 | c => c end
  | c => c
  end.

Definition lex_lt (a b : Z * Z * Z) : Prop :=
  let '(a1, a2, a3) := a in
  let '(b1, b2, b3) := b in
  a1 < b1 \/ (a1 = b1 /\ (a2 < b2 \/ (a2 = b2 /\ a3 < b3))).


Local Close Scope Z_scope.

Section TableSpecs.
Context {A : Type}.
Variable eq_dec : forall x y : A, {x = y} + {x <> y}.

(** The same scan written from the head of the table, with the set of
    values seen so far. *)
Fixpoint unseen (seen : list A) (l : list A) : list A :=
  match l with
  | [] => []
  | x :: t =>
      if in_dec eq_dec x seen then unseen seen t
      else x :: unseen (seen ++ [x]) t
  end.


(** The value attached to a key in a keyed table. *)
Fixpoint assoc {V : Type} (k : A) (t : list (A * V)) : option V :=
  match t with
  | [] => None
  | (k', v) :: rest => if eq_dec k k' then Some v else assoc k rest
  end.

End TableSpecs.






(** The identifier of an entity: its rank among the distinct entities,
    counted from one. *)
Definition id_of (prefix : string) (keys : list key4) (k : key4)
  : option string :=
  option_map (fun p => (prefix ++ format_02d (p + 1))%string)
             (index_of key4_eq_dec k keys).



(** What the loop has established once the pairs [done] are behind it. *)
Definition search_inv (m : Selector.matrix) (st : Selector.search)
    (done : list (nat * nat)) : Prop :=
  is_nan (Selector.best_total st) = false /\
  (forall p, In p done ->
     ltb (Selector.total_rss_of m p) (Selector.best_total st) = false) /\
  match Selector.best_pair st with
  | None => Selector.best_total st = inf
  | Some b =>
      Selector.best_total st = Selector.total_rss_of m b /\
      Selector.best_min_rss st = Some (Selector.pair_min_rss m b) /\
      ltb (Selector.total_rss_of m b) inf = true /\
      exists pre post,
        done = pre ++ b :: post /\
        forall p, In p pre ->
          leb (Selector.total_rss_of m p) (Selector.total_rss_of m b) = false
  end.





(** What the scan of [idxmin] has established once the values [done] are
    behind it. *)
Definition argmin_inv (best : option (nat * float64)) (done : list float64)
  : Prop :=
  match best with
  | None => forall w, In w done -> is_nan w = true
  | Some (bi, bv) =>
      nth_error done bi = Some bv /\ is_nan bv = false /\
      (forall w, In w done -> ltb w bv = false) /\
      (forall k w, k < bi -> nth_error done k = Some w -> leb w bv = false)
  end.


(** A row with the four uncertainty columns as given. *)
Definition row_uc (huh hd huv vu : cell) : row :=
  {| wtg_x := Number (of_Z 0); wtg_y := Number (of_Z 0);
     wtg_z := Number (of_Z 0); wtg_rix := Number (of_Z 0);
     ref_x := Number (of_Z 1); ref_y := Number (of_Z 1);
     ref_z := Number (of_Z 1); ref_rix := Number (of_Z 1);
     horiz_uc_horiz := huh; horizontal_distance := hd;
     horiz_uc_vert := huv; vertical_uc := vu |}.

(** Sample tables: a reading of turbine [t] against mast [m], whose
    adjusted RSS uncertainty comes out as [u]. *)
Definition reading (t m mast_rix u : Z) : row :=
  {| wtg_x := Number (of_Z t); wtg_y := Number zero;
     wtg_z := Number zero; wtg_rix := Number zero;
     ref_x := Number (of_Z m); ref_y := Number zero;
     ref_z := Number zero; ref_rix := Number (of_Z mast_rix);
     horiz_uc_horiz := Number (of_Z u); horizontal_distance := Number zero;
     horiz_uc_vert := Number zero; vertical_uc := Number zero |}.

(** The enriched table the aggregator makes of sample rows. *)
Definition enriched_of (rows : list row) : list enriched :=
  Aggregator.df_data (Aggregator.aggregate rows).

(** Two turbines against three masts: 5, 1, 9 and 2, 8, 1. *)
Definition two_by_three : list enriched :=
  enriched_of [reading 1 1 0 5; reading 1 2 0 1; reading 1 3 0 9;
               reading 2 1 0 2; reading 2 2 0 8; reading 2 3 0 1].


(** Two masts at one position, with different RIX. *)
Definition same_position : list enriched :=
  enriched_of [reading 1 1 0 5; reading 1 1 7 6].

(** A grouped table of the former layout: three masts, the second and the
    third with the same smallest value. *)
Definition legacy_table : Selector.table :=
  [("Reference Point X [m]", [Number (of_Z 10); Number (of_Z 20); Number (of_Z 30)]);
   ("Reference Point Y [m]", [Number (of_Z 11); Number (of_Z 21); Number (of_Z 31)]);
   ("Reference Point Z [m]", [Number (of_Z 12); Number (of_Z 22); Number (of_Z 32)]);
   ("Reference RIX [%]", [Number (of_Z 1); Number (of_Z 2); Number (of_Z 3)]);
   ("RSS of uncertainty increases [%]",
    [Number (of_Z 7); Number (of_Z 4); Number (of_Z 4)])].

(** A file with the header line and the closing notes only. *)
Definition header_line : string :=
  String.concat (String Parser.tab EmptyString)
    (" WTG X [m] " :: "WTG Y [m]" :: "WTG Z [m]" :: "WTG RIX [%]"
     :: Parser.ref_col_names ++ Parser.cols_to_numeric).


(** A decoder that reads every field as text. *)
Definition no_decode (s : string) : cell := Text s.

(** A cell that holds NaN, and a position with such a cell. *)
Definition cell_is_nan (c : cell) : bool :=
  match c with
  | Number v => is_nan v
  | Text _ => false
  end.

Definition has_nan_coord (c : key3) : bool :=
  let '(x, y, z) := c in
  orb (orb (cell_is_nan x) (cell_is_nan y)) (cell_is_nan z).

(** Two positions that [==] finds equal, coordinate by coordinate. *)
Definition same_coords (a b : key3) : bool :=
  let '(ax, ay, az) := a in
  let '(bx, by_, bz) := b in
  andb (andb (Selector.cell_eqb ax bx) (Selector.cell_eqb ay by_))
       (Selector.cell_eqb az bz).

(** What the pair search reads of a row: the two positions and the
    adjusted RSS uncertainty. *)
Definition search_view (e : enriched) : key3 * key3 * float64 :=
  (Selector.wtg_xyz e, Selector.ref_xyz e, adj_RSS_uncertainty e).

(** What a feature and a line of the all-pairs list say apart from the
    names of the masts. *)
Definition feature_values (f : Selector.feature) : cell * cell * cell * float64 :=
  (Selector.f_x f, Selector.f_y f, Selector.f_z f, Selector.pair_total_rss f).

Definition line_values (l : Selector.pair_line) : float64 * float64 * bool :=
  (Selector.total_rss l, Selector.avg_rss l, Selector.is_best l).

(** A row of the cities table for this country and this city. *)
Definition is_city (country_name city_name : string) (r : Plugin.city_row)
  : Prop :=
  Plugin.country r = Some country_name /\ Plugin.city r = Some city_name.

(** Latitudes that have no UTM zone for the plugin. *)
Definition out_of_band (lat_ : float64) : bool :=
  orb (ltb (of_Z 84) lat_) (ltb lat_ (of_Z (-80))).

(** The EPSG prefix of the hemisphere of a latitude. *)
Definition hemisphere_prefix (lat_ : float64) : string :=
  if leb zero lat_ then "EPSG:326" else "EPSG:327".

(** The zone of a longitude given in whole degrees. *)
Definition zone_of_degrees (k : Z) : Z := ((k + 180) / 6 + 1)%Z.

(** What [get_utm_crs_from_lonlat] has to say on a whole-degree
    longitude: its zone, and that the longitude has no decimal part to
    act on. *)
Definition degree_check (k : Z) : bool :=
  match Plugin.floor (div (add (of_Z k) (of_Z 180)) (of_Z 6)),
        Plugin.floor (of_Z k) with
  | Ok fl, Ok fl_lon =>
      andb (Z.eqb (fl + 1) (zone_of_degrees k))
           (negb (leb (of_Z 5) (Plugin.sub (of_Z k) (of_Z fl_lon))))
  | _, _ => false
  end.

(** An event that reports a selection. *)
Definition is_selection (ev : Plugin.event) : Prop :=
  match ev with
  | Plugin.selected_single _ | Plugin.selected_pair _ => True
  | _ => False
  end.

(** A turbine tuple with a NaN cell. *)
Definition key4_has_nan (k : key4) : bool :=
  let '(a, b, c, d) := k in
  orb (orb (cell_is_nan a) (cell_is_nan b)) (orb (cell_is_nan c) (cell_is_nan d)).

(** A session after the main run on the sample tables, for a project in
    one known city. *)
Definition sample_cities : list Plugin.city_row :=
  [{| Plugin.country := Some "France"; Plugin.city := Some "Lyon";
      Plugin.lng := of_Z 5; Plugin.lat := of_Z 46 |};
   {| Plugin.country := Some "France"; Plugin.city := Some "Paris";
      Plugin.lng := of_Z 2; Plugin.lat := of_Z 49 |};
   {| Plugin.country := Some "Chile"; Plugin.city := None;
      Plugin.lng := of_Z (-71); Plugin.lat := of_Z (-33) |}].

Definition sample_session : Plugin.session :=
  {| Plugin.cities_by_country := sample_cities;
     Plugin.output_direcory := Some "results";
     Plugin.df_data := Some two_by_three;
     Plugin.layers := ["OpenStreetMap"];
     Plugin.mast_points_data := Some legacy_table;
     Plugin.noerror := true |}.

Definition sample_dialog (crs_ city_ choice : string) : Plugin.dialog :=
  {| Plugin.trix_file := "site.txt"; Plugin.out_dir := "out";
     Plugin.crs := crs_; Plugin.country_input := "France";
     Plugin.city_input := city_; Plugin.comboBox := choice |}.

(** A grouped table as the aggregator writes it. *)
Definition grouped_table : Selector.table :=
  [("Reference Point X [m]", [Number (of_Z 10); Number (of_Z 20)]);
   ("Reference Point Y [m]", [Number (of_Z 11); Number (of_Z 21)]);
   ("Reference Point Z [m]", [Number (of_Z 12); Number (of_Z 22)]);
   ("Reference RIX [%]", [Number (of_Z 1); Number (of_Z 2)]);
   ("mast_id", [Text "Mast_01"; Text "Mast_02"]);
   ("adj_RSS_uncertainty", [Number (of_Z 7); Number (of_Z 4)])].

(** A reading of texts as floats that accepts no text. *)
Definition no_float (t : string) : option float64 := None.

(** The dispatch of [highlight_best_met] on the choice of the dialog. *)
Definition highlight_choice (s : Plugin.session) (d : Plugin.dialog)
    (c : option string) : Plugin.run :=
  if String.eqb (Plugin.comboBox d) "Single" then Plugin.highlight_single s c
  else if String.eqb (Plugin.comboBox d) "Pair" then Plugin.highlight_pair s
  else Plugin.done s [Plugin.display_warning
                        "Select an option for optimal Mest Mast"].


(** A station at the pole, and the session of a project there. *)
Definition polar_session : Plugin.session :=
  {| Plugin.cities_by_country :=
       [{| Plugin.country := Some "Antarctica";
           Plugin.city := Some "Amundsen-Scott";
           Plugin.lng := of_Z 0; Plugin.lat := of_Z (-90) |}];
     Plugin.output_direcory := Some "results";
     Plugin.df_data := Some two_by_three;
     Plugin.layers := [];
     Plugin.mast_points_data := Some legacy_table;
     Plugin.noerror := true |}.

Definition polar_dialog (choice : string) : Plugin.dialog :=
  {| Plugin.trix_file := "site.txt"; Plugin.out_dir := "out";
     Plugin.crs := ""; Plugin.country_input := "Antarctica";
     Plugin.city_input := "Amundsen-Scott"; Plugin.comboBox := choice |}.
(** * Properties *)

(** ** The order of binary64 values

    [SFcompare] orders the values that are not NaN as a lexicographic order
    on a triple: the class of the value (infinities outermost, zeros in the
    middle), then exponent and mantissa, both negated under a minus sign. *)

Section FloatOrder.
Local Open Scope Z_scope.

Lemma compare_key (x y : float64) :
  SFcompare x y =
  match order_key x, order_key y with
  | Some a, Some b => Some (lex_compare a b)
  | _, _ => None
  end.
Proof.
  destruct x as [sx|sx| |sx mx ex], y as [sy|sy| |sy my ey];
    try destruct sx; try destruct sy; try reflexivity; simpl.
  rewrite Z.compare_opp, (Z.compare_antisym ex ey).
    destruct (ex ?= ey); reflexivity.
Qed.

Lemma lex_compare_spec (a b : Z * Z * Z) :
  match lex_compare a b with
  | Lt => lex_lt a b
  | Eq => a = b
  | Gt => lex_lt b a
  end.
Proof.
  destruct a as [[a1 a2] a3], b as [[b1 b2] b3]; simpl.
  destruct (Z.compare_spec a1 b1); [ | lia | lia].
  destruct (Z.compare_spec a2 b2); [ | lia | lia].
  destruct (Z.compare_spec a3 b3); [ congruence | lia | lia].
Qed.

Lemma lex_lt_irrefl a : ~ lex_lt a a.
Proof. destruct a as [[a1 a2] a3]; simpl; lia. Qed.

Lemma lex_lt_trans a b c : lex_lt a b -> lex_lt b c -> lex_lt a c.
Proof.
  destruct a as [[a1 a2] a3], b as [[b1 b2] b3], c as [[c1 c2] c3];
    simpl; lia.
Qed.

Lemma lex_total a b : lex_lt a b \/ a = b \/ lex_lt b a.
Proof.
  destruct a as [[a1 a2] a3], b as [[b1 b2] b3]; simpl.
  destruct (Z.eq_dec a1 b1), (Z.eq_dec a2 b2), (Z.eq_dec a3 b3);
    subst; auto; lia.
Qed.

Lemma ltb_key (x y : float64) :
  ltb x y = true <->
  exists a b, order_key x = Some a /\ order_key y = Some b /\ lex_lt a b.
Proof.
  unfold ltb, SFltb. rewrite compare_key.
  destruct (order_key x) as [a|], (order_key y) as [b|];
    try (split; [discriminate | intros (a' & b' & ? & ? & _); discriminate]).
  pose proof (lex_compare_spec a b) as H.
  destruct (lex_compare a b); split; try discriminate; try reflexivity.
  - intros (a' & b' & Ha & Hb & L). injection Ha as <-. injection Hb as <-.
    subst. now apply lex_lt_irrefl in L.
  - intros _. now exists a, b.
  - intros (a' & b' & Ha & Hb & L). injection Ha as <-. injection Hb as <-.
    exfalso. apply (lex_lt_irrefl a). eapply lex_lt_trans; eassumption.
Qed.

Lemma leb_key (x y : float64) :
  leb x y = true <->
  exists a b, order_key x = Some a /\ order_key y = Some b /\ ~ lex_lt b a.
Proof.
  unfold leb, SFleb. rewrite compare_key.
  destruct (order_key x) as [a|], (order_key y) as [b|];
    try (split; [discriminate | intros (a' & b' & ? & ? & _); discriminate]).
  pose proof (lex_compare_spec a b) as H.
  destruct (lex_compare a b); split; try discriminate; try reflexivity.
  - intros _. exists a, b. subst. repeat split. apply lex_lt_irrefl.
  - intros _. exists a, b. repeat split. intros L.
    apply (lex_lt_irrefl a). eapply lex_lt_trans; eassumption.
  - intros (a' & b' & Ha & Hb & L). injection Ha as <-. injection Hb as <-.
    contradiction.
Qed.

Lemma key_nan (x : float64) : order_key x = None <-> is_nan x = true.
Proof. destruct x as [s|s| |s m e]; try destruct s; simpl; split; congruence. Qed.

Lemma key_some (x : float64) :
  is_nan x = false -> exists a, order_key x = Some a.
Proof.
  destruct x as [s|s| |s m e]; try destruct s; simpl;
    try discriminate; intros _; eexists; reflexivity.
Qed.

(** The facts the searches rely on. *)

Lemma ltb_not_nan (x y : float64) :
  ltb x y = true -> is_nan x = false /\ is_nan y = false.
Proof.
  intros H. apply ltb_key in H. destruct H as (a & b & Ha & Hb & _).
  destruct x, y; try discriminate; auto.
Qed.

Lemma ltb_irrefl (x : float64) : ltb x x = false.
Proof.
  destruct (ltb x x) eqn:E; [ | reflexivity].
  apply ltb_key in E. destruct E as (a & b & Ha & Hb & L).
  rewrite Ha in Hb. injection Hb as <-. now apply lex_lt_irrefl in L.
Qed.

Lemma ltb_trans (x y z : float64) :
  ltb x y = true -> ltb y z = true -> ltb x z = true.
Proof.
  intros H1 H2. apply ltb_key in H1, H2. apply ltb_key.
  destruct H1 as (a & b & Ha & Hb & L1), H2 as (b' & c & Hb' & Hc & L2).
  rewrite Hb in Hb'. injection Hb' as <-.
  exists a, c. repeat split; auto. eapply lex_lt_trans; eassumption.
Qed.

(** [x] is not below [z], and [y] is: then [y] is below [x]. *)
Lemma ltb_below (x y z : float64) :
  is_nan x = false -> ltb x z = false -> ltb y z = true -> ltb y x = true.
Proof.
  intros Nx H1 H2. apply key_some in Nx. destruct Nx as (a & Ha).
  apply ltb_key in H2. destruct H2 as (b & c & Hb & Hc & L).
  apply ltb_key. exists b, a. repeat split; auto.
  destruct (lex_total b a) as [?|[->|G]]; auto.
  - exfalso. assert (ltb x z = true); [ | congruence].
    apply ltb_key. now exists a, c.
  - exfalso. assert (ltb x z = true); [ | congruence].
    apply ltb_key. exists a, c. repeat split; auto.
    eapply lex_lt_trans; eassumption.
Qed.

Lemma ltb_leb_false (x y : float64) : ltb x y = true -> leb y x = false.
Proof.
  intros H. destruct (leb y x) eqn:E; [ | reflexivity].
  apply ltb_key in H. apply leb_key in E.
  destruct H as (a & b & Ha & Hb & L), E as (b' & a' & Hb' & Ha' & N).
  congruence.
Qed.

Lemma leb_total (x y : float64) :
  is_nan x = false -> is_nan y = false -> ltb y x = false -> leb x y = true.
Proof.
  intros Nx Ny H. apply key_some in Nx, Ny.
  destruct Nx as (a & Ha), Ny as (b & Hb).
  apply leb_key. exists a, b. repeat split; auto.
  intros L. assert (ltb y x = true); [ | congruence].
  apply ltb_key. now exists b, a.
Qed.


Lemma leb_nan_l (x : float64) : leb nan x = false.
Proof. reflexivity. Qed.

End FloatOrder.

(** ** Deduplication, index lookup and left joins *)

Section TableFacts.
Context {A : Type}.
Variable eq_dec : forall x y : A, {x = y} + {x <> y}.

Lemma fold_keep_first_unseen (l acc : list A) :
  fold_left (keep_first eq_dec) l acc = acc ++ unseen eq_dec acc l.
Proof.
  revert acc. induction l as [|x t IH]; intros acc; simpl.
  - now rewrite app_nil_r.
  - unfold keep_first at 2. destruct (in_dec eq_dec x acc).
    + apply IH.
    + rewrite IH, <- app_assoc. reflexivity.
Qed.

Lemma drop_duplicates_unseen (l : list A) :
  drop_duplicates eq_dec l = unseen eq_dec [] l.
Proof. unfold drop_duplicates. now rewrite fold_keep_first_unseen. Qed.

Lemma unseen_In (l seen : list A) (x : A) :
  In x (unseen eq_dec seen l) <-> In x l /\ ~ In x seen.
Proof.
  revert seen. induction l as [|y t IH]; intros seen; simpl.
  - tauto.
  - destruct (in_dec eq_dec y seen) as [Hy|Hy].
    + rewrite IH. split.
      * tauto.
      * intros [[->|H] N]; tauto.
    + simpl. rewrite IH, in_app_iff. simpl. split.
      * intros [->|[H N]]; [tauto | split; [tauto | tauto]].
      * intros [[->|H] N]; [tauto | ].
        destruct (eq_dec y x); [tauto | right; tauto].
Qed.

Lemma unseen_NoDup (l seen : list A) : NoDup (unseen eq_dec seen l).
Proof.
  revert seen. induction l as [|y t IH]; intros seen; simpl.
  - constructor.
  - destruct (in_dec eq_dec y seen); [apply IH | ].
    constructor; [ | apply IH].
    rewrite unseen_In, in_app_iff. simpl. tauto.
Qed.

Lemma index_of_Some_In (x : A) (l : list A) (p : nat) :
  index_of eq_dec x l = Some p -> nth_error l p = Some x.
Proof.
  revert p. induction l as [|y t IH]; intros p; simpl; [discriminate | ].
  destruct (eq_dec x y) as [->|N].
  - intros [= <-]. reflexivity.
  - destruct (index_of eq_dec x t) as [q|]; simpl; [ | discriminate].
    intros [= <-]. simpl. now apply IH.
Qed.




Lemma drop_duplicates_NoDup (l : list A) : NoDup (drop_duplicates eq_dec l).
Proof. rewrite drop_duplicates_unseen. apply unseen_NoDup. Qed.

Lemma drop_duplicates_In (l : list A) (x : A) :
  In x (drop_duplicates eq_dec l) <-> In x l.
Proof. rewrite drop_duplicates_unseen, unseen_In. simpl. tauto. Qed.


Lemma drop_duplicates_nil (l : list A) :
  drop_duplicates eq_dec l = [] -> l = [].
Proof.
  intros H. destruct l as [|x t]; [reflexivity | exfalso].
  assert (I : In x (drop_duplicates eq_dec (x :: t)))
    by (apply drop_duplicates_In; now left).
  now rewrite H in I.
Qed.

(** A left join against a table with distinct keys is a lookup. *)
Lemma filter_assoc {V : Type} (k : A) (t : list (A * V)) :
  NoDup (map fst t) ->
  filter (fun kv => if eq_dec k (fst kv) then true else false) t =
  match assoc eq_dec k t with
  | Some v => [(k, v)]
  | None => []
  end.
Proof.
  induction t as [|[k' v] rest IH]; simpl; [reflexivity | ].
  intros ND. inversion ND as [|? ? Hk ND']; subst.
  destruct (eq_dec k k') as [->|N].
  - f_equal. clear IH ND. induction rest as [|[k2 v2] r IH]; simpl; [reflexivity | ].
    simpl in Hk. destruct (eq_dec k' k2) as [->|_]; [tauto | ].
    apply IH; [tauto | ]. now inversion ND'.
  - now apply IH.
Qed.

Lemma merge_left_assoc {R V : Type} (key : R -> A) (left : list R)
    (right : list (A * V)) :
  NoDup (map fst right) ->
  merge_left eq_dec key left right =
  map (fun r => (r, assoc eq_dec (key r) right)) left.
Proof.
  intros ND. unfold merge_left.
  match goal with |- flat_map ?f _ = _ => set (F := f) end.
  induction left as [|r t IH]; [reflexivity | ].
  change (F r ++ flat_map F t = (r, assoc eq_dec (key r) right)
                                :: map (fun r => (r, assoc eq_dec (key r) right)) t).
  rewrite IH. unfold F. rewrite (filter_assoc (key r) right ND).
  destruct (assoc eq_dec (key r) right); reflexivity.
Qed.

Lemma assoc_combine {V : Type} (k : A) (ks : list A) (vs : list V) :
  List.length ks = List.length vs ->
  assoc eq_dec k (combine ks vs) =
  match index_of eq_dec k ks with
  | Some p => nth_error vs p
  | None => None
  end.
Proof.
  revert vs. induction ks as [|k' t IH]; intros [|v vs]; simpl;
    try discriminate; try reflexivity.
  intros [= L]. destruct (eq_dec k k') as [->|N]; [reflexivity | ].
  rewrite (IH vs L). now destruct (index_of eq_dec k t).
Qed.

Lemma map_fst_combine_same {V : Type} (ks : list A) (vs : list V) :
  List.length ks = List.length vs -> map fst (combine ks vs) = ks.
Proof.
  revert vs. induction ks as [|k t IH]; intros [|v vs]; simpl;
    try discriminate; try reflexivity.
  intros [= L]. now rewrite IH.
Qed.

Lemma index_of_bound (x : A) (l : list A) (p : nat) :
  index_of eq_dec x l = Some p -> p < List.length l.
Proof.
  intros H. apply index_of_Some_In in H.
  apply nth_error_Some. congruence.
Qed.

End TableFacts.

(** ** The aggregator *)

Lemma make_ids_length (prefix : string) (n : nat) :
  List.length (make_ids prefix n) = n.
Proof. unfold make_ids. now rewrite length_map, length_seq. Qed.

Lemma make_ids_nth (prefix : string) (n i : nat) :
  i < n ->
  nth_error (make_ids prefix n) i = Some (prefix ++ format_02d (i + 1))%string.
Proof.
  intros H. unfold make_ids.
  rewrite nth_error_map, nth_error_seq.
  destruct (Nat.ltb_spec i n); [reflexivity | lia].
Qed.

Lemma assoc_ids (prefix : string) (keys : list key4) (k : key4) :
  assoc key4_eq_dec k (combine keys (make_ids prefix (List.length keys))) =
  id_of prefix keys k.
Proof.
  rewrite assoc_combine by now rewrite make_ids_length.
  unfold id_of. destruct (index_of key4_eq_dec k keys) as [p|] eqn:E;
    [ | reflexivity].
  simpl. apply make_ids_nth. eapply index_of_bound; eauto.
Qed.

Lemma aggregate_unique_turbines (df : list row) :
  map fst (Aggregator.unique_turbines (Aggregator.aggregate df)) =
  drop_duplicates key4_eq_dec (map turbine_cols df).
Proof.
  simpl. apply map_fst_combine_same. now rewrite make_ids_length.
Qed.

Lemma aggregate_df1 (df : list row) :
  let ut := drop_duplicates key4_eq_dec (map turbine_cols df) in
  merge_left key4_eq_dec turbine_cols df
    (combine ut (make_ids "WTG_" (List.length ut))) =
  map (fun r => (r, id_of "WTG_" ut (turbine_cols r))) df.
Proof.
  intros ut. rewrite merge_left_assoc.
  - apply map_ext. intros r. now rewrite assoc_ids.
  - rewrite map_fst_combine_same by now rewrite make_ids_length.
    apply drop_duplicates_NoDup.
Qed.


(** The table after the run, row by row. *)
Lemma aggregate_df_data (df : list row) :
  let ut := drop_duplicates key4_eq_dec (map turbine_cols df) in
  let um := drop_duplicates key4_eq_dec (map ref_cols df) in
  Aggregator.df_data (Aggregator.aggregate df) =
  map (fun r => Aggregator.enrich
                  (r, id_of "WTG_" ut (turbine_cols r),
                      id_of "Mast_" um (ref_cols r))) df.
Proof.
  intros ut um. unfold Aggregator.aggregate. cbn [Aggregator.df_data].
  rewrite aggregate_df1. fold ut.
  rewrite map_map. cbn [fst].
  change (map (fun x : row => ref_cols x) df) with (map ref_cols df). fold um.
  rewrite merge_left_assoc.
  - rewrite !map_map. apply map_ext. intros r. cbn [fst].
    now rewrite assoc_ids.
  - rewrite map_fst_combine_same by now rewrite make_ids_length.
    apply drop_duplicates_NoDup.
Qed.



Lemma format_02d_width :
  forallb (fun n => Nat.eqb (String.length (format_02d n)) 2) (seq 0 100) = true.
Proof. vm_compute. reflexivity. Qed.



(** ** Signs of rounded results

    Rounding keeps the sign it is given: the result of an operation on
    values that are not NaN is a zero, a finite value or an infinity of the
    expected sign. *)

Section FloatSign.
Local Open Scope Z_scope.















End FloatSign.

(** ** Sign of the adjusted uncertainty *)







(** ** Pair mode: the matrix *)

Section MatrixFacts.
Import Selector.





(** Distinct values of a coarser key are no more than those of a finer
    one. *)
Lemma coarser_key_count {R K1 K2 : Type}
    (dec1 : forall x y : K1, {x = y} + {x <> y})
    (dec2 : forall x y : K2, {x = y} + {x <> y})
    (fine : R -> K1) (coarse : R -> K2) (h : K1 -> K2) (l : list R) :
  (forall r, coarse r = h (fine r)) ->
  List.length (drop_duplicates dec2 (map coarse l)) <=
  List.length (drop_duplicates dec1 (map fine l)).
Proof.
  intros E.
  rewrite <- (length_map h (drop_duplicates dec1 (map fine l))).
  apply NoDup_incl_length; [apply drop_duplicates_NoDup | ].
  intros k Hk. apply drop_duplicates_In, in_map_iff in Hk.
  destruct Hk as (r & <- & Hr). rewrite E. apply in_map.
  apply drop_duplicates_In. now apply in_map.
Qed.

End MatrixFacts.


(** ** Pair mode: the search *)

Section SearchFacts.
Import Selector.
Variable m : matrix.

Lemma search_inv_start : search_inv m search_start [].
Proof. repeat split. intros p []. Qed.

Lemma ltb_inf_bound (x y : float64) :
  is_nan y = false -> ltb x y = true -> ltb x inf = true.
Proof.
  intros Ny H. destruct y as [s|[|]| |s me e]; try discriminate; auto.
  - destruct x as [sx|[|]| |sx mx ex]; try discriminate; reflexivity.
  - destruct x as [sx|[|]| |sx mx ex]; try discriminate; try reflexivity;
      destruct s; discriminate.
  - destruct x as [sx|[|]| |sx mx ex]; try discriminate; reflexivity.
Qed.

Lemma search_step_inv (st : search) (done : list (nat * nat)) (p : nat * nat) :
  search_inv m st done -> search_inv m (search_step m st p) (done ++ [p]).
Proof.
  intros (N & B & S). unfold search_step.
  fold (total_rss_of m p).
  destruct (ltb (total_rss_of m p) (best_total st)) eqn:E.
  - destruct (ltb_not_nan _ _ E) as (Np & _).
    repeat split; cbn [best_pair best_total best_min_rss]; auto.
    + intros q Hq. apply in_app_iff in Hq. destruct Hq as [Hq|[<-|[]]].
      * destruct (ltb (total_rss_of m q) (total_rss_of m p)) eqn:F;
          [exfalso | reflexivity].
        pose proof (ltb_trans _ _ _ F E) as T.
        rewrite (B q Hq) in T. discriminate.
      * apply ltb_irrefl.
    + exact (ltb_inf_bound _ _ N E).
    + exists done, []. split; [reflexivity | ].
      intros q Hq. destruct (is_nan (total_rss_of m q)) eqn:Nq.
      * destruct (total_rss_of m q); try discriminate. reflexivity.
      * apply ltb_leb_false.
        exact (ltb_below _ _ _ Nq (B q Hq) E).
  - split; [exact N | ]. split.
    + intros q Hq. apply in_app_iff in Hq. destruct Hq as [Hq|[<-|[]]]; auto.
    + destruct (best_pair st) as [b|]; [ | exact S].
      destruct S as (S1 & S2 & S3 & pre & post & -> & S4).
      repeat split; auto. exists pre, (post ++ [p]).
      split; [ | exact S4]. now rewrite <- app_assoc.
Qed.

Lemma search_fold_inv (l : list (nat * nat)) (st : search)
    (done : list (nat * nat)) :
  search_inv m st done ->
  search_inv m (fold_left (search_step m) l st) (done ++ l).
Proof.
  revert st done. induction l as [|p l IH]; intros st done H; simpl.
  - now rewrite app_nil_r.
  - replace (done ++ p :: l) with ((done ++ [p]) ++ l)
      by (now rewrite <- app_assoc).
    apply IH, search_step_inv, H.
Qed.

Lemma search_pairs_inv (n : nat) :
  search_inv m (search_pairs m n) (combinations2 n).
Proof. apply (search_fold_inv (combinations2 n) search_start []), search_inv_start. Qed.


End SearchFacts.

(** The pairs of [combinations(range(n), 2)]. *)

Lemma combinations2_In (n i j : nat) :
  In (i, j) (Selector.combinations2 n) <-> i < j < n.
Proof.
  unfold Selector.combinations2. rewrite in_flat_map. split.
  - intros (k & Hk & H). apply in_seq in Hk. apply in_map_iff in H.
    destruct H as (j' & [= <- <-] & Hj). apply in_seq in Hj. lia.
  - intros H. exists i. split; [apply in_seq; lia | ].
    apply in_map_iff. exists j. split; [reflexivity | apply in_seq; lia].
Qed.




Lemma combinations2_small (n : nat) : n < 2 -> Selector.combinations2 n = [].
Proof. destruct n as [|[|n]]; [reflexivity | reflexivity | lia]. Qed.

(** ** Pair mode: the outcome of [process_best_two_met_mast] *)

Section PairFacts.
Import Selector.

Lemma pair_eqb_eq (p q : nat * nat) : pair_eqb p q = true <-> p = q.
Proof.
  destruct p as [a b], q as [c d]. unfold pair_eqb. cbn [fst snd].
  rewrite andb_true_iff, !Nat.eqb_eq. split.
  - intros [-> ->]. reflexivity.
  - intros [= -> ->]. auto.
Qed.



Lemma turbines_nil (df : list enriched) : turbines df = [] -> df = [].
Proof.
  intros H. apply drop_duplicates_nil in H. now apply map_eq_nil in H.
Qed.

Lemma masts_nil (df : list enriched) : masts df = [] -> df = [].
Proof.
  intros H. apply drop_duplicates_nil in H. now apply map_eq_nil in H.
Qed.

(** The two ways out of [process_best_two_met_mast]. *)
Lemma process_best_two_cases (df : list enriched) (noerror : bool) :
  let st := search_pairs (rss_values df) (List.length (masts df)) in
  match best_pair st with
  | None => process_best_two_met_mast df noerror = Raise "TypeError"
  | Some (b0, b1) =>
      exists c0 c1,
        b0 < b1 < List.length (masts df) /\
        0 < List.length (turbines df) /\
        nth_error (masts df) b0 = Some c0 /\
        nth_error (masts df) b1 = Some c1 /\
        process_best_two_met_mast df noerror =
        Ok {| features :=
                [make_feature (get_mast_id (unique_masts df) c0) c0
                   (div (best_total st) (of_nat (List.length (turbines df))));
                 make_feature (get_mast_id (unique_masts df) c1) c1
                   (div (best_total st) (of_nat (List.length (turbines df))))];
              all_pairs := if noerror
                           then Some (all_pairs_csv df (b0, b1))
                           else None |}
  end.
Proof.
  intros st. unfold process_best_two_met_mast. fold st.
  pose proof (search_pairs_inv (rss_values df) (List.length (masts df)))
    as (_ & _ & S). fold st in S.
  destruct (best_pair st) as [[b0 b1]|]; [ | reflexivity].
  destruct S as (_ & _ & _ & pre & post & E & _).
  assert (I : In (b0, b1) (combinations2 (List.length (masts df))))
    by (rewrite E; apply in_app_iff; right; now left).
  apply combinations2_In in I.
  destruct (nth_error (masts df) b0) as [c0|] eqn:E0;
    [ | apply nth_error_None in E0; lia].
  destruct (nth_error (masts df) b1) as [c1|] eqn:E1;
    [ | apply nth_error_None in E1; lia].
  assert (T : 0 < List.length (turbines df)).
  { destruct (turbines df) eqn:Et; [ | simpl; lia].
    apply turbines_nil in Et. subst df. simpl in I. lia. }
  exists c0, c1. repeat split; try lia.
  unfold mean_over. destruct (Nat.ltb_spec 0 (List.length (turbines df)));
    [reflexivity | lia].
Qed.

End PairFacts.



(** The worked example of the specification: the pairs total 3, 6 and 2,
    and the second and third masts are selected. *)
Example two_by_three_search :
  map (Selector.total_rss_of (Selector.rss_values two_by_three))
      (Selector.combinations2 3) = [of_Z 3; of_Z 6; of_Z 2] /\
  Selector.best_pair
    (Selector.search_pairs (Selector.rss_values two_by_three) 3) = Some (1, 2).
Proof. vm_compute. split; reflexivity. Qed.


(** C5, as the code has it. The [pair_total_rss] attribute of the two
    features is the total of the selected pair divided by the number of
    turbines, the value the all-pairs list calls [avg_rss]. *)
Theorem pair_total_rss_is_mean (df : list enriched) (noerror : bool)
    (out : Selector.pair_output) :
  Selector.process_best_two_met_mast df noerror = Ok out ->
  exists b,
    let values := Selector.rss_values df in
    let pairs := Selector.combinations2 (List.length (Selector.masts df)) in
    let mean := div (Selector.total_rss_of values b)
                    (of_nat (List.length (Selector.turbines df))) in
    In b pairs /\
    (forall p, In p pairs ->
       ltb (Selector.total_rss_of values p) (Selector.total_rss_of values b) = false) /\
    map Selector.pair_total_rss (Selector.features out) = [mean; mean] /\
    Selector.all_pairs out =
      (if noerror then Some (Selector.all_pairs_csv df b) else None) /\
    Forall (fun l => Selector.is_best l = true ->
                     Selector.total_rss l = Selector.total_rss_of values b /\
                     Selector.avg_rss l = mean)
           (Selector.all_pairs_csv df b).
Proof.
  intros P.
  pose proof (process_best_two_cases df noerror) as C. cbv zeta in C.
  pose proof (search_pairs_inv (Selector.rss_values df)
                (List.length (Selector.masts df))) as (_ & B & S).
  destruct (Selector.best_pair _) as [[b0 b1]|]; [ | congruence].
  destruct C as (c0 & c1 & Hlt & HT & E0 & E1 & P').
  destruct S as (S1 & _ & _ & pre & post & E & _).
  rewrite P' in P. injection P as <-. rewrite S1.
  exists (b0, b1). cbv zeta. cbn [Selector.features Selector.all_pairs].
  split; [apply combinations2_In; exact Hlt | ].
  split; [intros p Hp; rewrite <- S1; now apply B | ].
  split; [destruct c0 as [[? ?] ?], c1 as [[? ?] ?]; reflexivity | ].
  split; [reflexivity | ].
  apply Forall_forall. intros l Hl. unfold Selector.all_pairs_csv in Hl.
  apply in_map_iff in Hl. destruct Hl as (ij & <- & _).
  cbn [Selector.is_best Selector.total_rss Selector.avg_rss].
  intros Hb. apply pair_eqb_eq in Hb. subst ij.
  split; [reflexivity | ]. unfold Selector.mean_over.
  destruct (Nat.ltb_spec 0 (List.length (Selector.turbines df)));
    [reflexivity | lia].
Qed.

Lemma pair_total_rss_is_mean_witness :
  exists out b,
    Selector.process_best_two_met_mast two_by_three true = Ok out /\
    map Selector.pair_total_rss (Selector.features out) =
      [div (Selector.total_rss_of (Selector.rss_values two_by_three) b)
           (of_nat (List.length (Selector.turbines two_by_three)));
       div (Selector.total_rss_of (Selector.rss_values two_by_three) b)
           (of_nat (List.length (Selector.turbines two_by_three)))].
Proof.
  destruct (Selector.process_best_two_met_mast two_by_three true)
    as [out|e] eqn:P; [ | vm_compute in P; discriminate].
  destruct (pair_total_rss_is_mean two_by_three true out P)
    as (b & _ & _ & M & _).
  exists out, b. split; [reflexivity | exact M].
Defined.

(** On the worked example the selected pair totals 2 over two turbines,
    and the features carry 1. *)
Lemma pair_total_rss_differs_from_total :
  exists out lines,
    Selector.process_best_two_met_mast two_by_three true = Ok out /\
    Selector.all_pairs out = Some lines /\
    map Selector.total_rss (filter Selector.is_best lines) = [of_Z 2] /\
    map Selector.pair_total_rss (Selector.features out) = [of_Z 1; of_Z 1] /\
    of_Z 1 <> of_Z 2.
Proof.
  eexists. eexists. vm_compute. repeat split; try reflexivity. discriminate.
Qed.

(** C8, as the code has it. With fewer than two distinct mast positions,
    and so with fewer than two distinct masts, there is no pair to try,
    [best_pair] stays [None] and subscripting it raises [TypeError]. *)
Theorem pair_mode_needs_two_masts (df : list enriched) (noerror : bool) :
  List.length (Selector.masts df) < 2 \/
  List.length (drop_duplicates key4_eq_dec
                 (map (fun e => ref_cols (source e)) df)) < 2 ->
  Selector.process_best_two_met_mast df noerror = Raise "TypeError".
Proof.
  intros H.
  assert (L : List.length (Selector.masts df) < 2).
  { destruct H as [H|H]; [exact H | ].
    pose proof (coarser_key_count key4_eq_dec key3_eq_dec
                  (fun e => ref_cols (source e)) Selector.ref_xyz
                  (fun k => let '(a, b, c, _) := k in (a, b, c)) df
                  (fun _ => eq_refl)) as M.
    unfold Selector.masts. lia. }
  unfold Selector.process_best_two_met_mast, Selector.search_pairs.
  now rewrite (combinations2_small _ L).
Qed.

Lemma pair_mode_needs_two_masts_witness :
  Selector.process_best_two_met_mast same_position true = Raise "TypeError".
Proof.
  apply pair_mode_needs_two_masts. left. vm_compute. lia.
Defined.

(** Without any mast, and with a single one, the exception raised is not
    a [SelectionError]. *)
Lemma pair_mode_raises_type_error :
  Selector.process_best_two_met_mast [] true = Raise "TypeError" /\
  Selector.process_best_two_met_mast (enriched_of [reading 1 1 0 5]) true
    = Raise "TypeError" /\
  Selector.process_best_two_met_mast [] true <> Raise "SelectionError" /\
  Selector.process_best_two_met_mast (enriched_of [reading 1 1 0 5]) true
    <> Raise "SelectionError".
Proof. vm_compute. repeat split; try reflexivity; discriminate. Qed.

(** ** Pair mode: cells without a reading *)

Section SparseFacts.
Import Selector.





Lemma add_nan_r (x : float64) : add x nan = nan.
Proof. now destruct x. Qed.




End SparseFacts.

Section SparseTotals.
Import Selector.



End SparseTotals.




(** ** Single mode *)

Section SingleFacts.
Import Selector.

Lemma ltb_nan_l (x : float64) : ltb nan x = false.
Proof. reflexivity. Qed.

Lemma is_nan_eq (x : float64) : is_nan x = true -> x = nan.
Proof. destruct x; try discriminate; reflexivity. Qed.

Lemma argmin_step_inv (best : option (nat * float64)) (done : list float64)
    (v : float64) :
  argmin_inv best done ->
  argmin_inv
    (if is_nan v then best
     else match best with
          | None => Some (List.length done, v)
          | Some (_, b) => if ltb v b then Some (List.length done, v) else best
          end)
    (done ++ [v]).
Proof.
  intros I. destruct (is_nan v) eqn:Nv.
  - apply is_nan_eq in Nv. subst v.
    destruct best as [[bi bv]|]; cbn [argmin_inv] in *.
    + destruct I as (I1 & I2 & I3 & I4).
      assert (Bi : bi < List.length done) by (apply nth_error_Some; congruence).
      repeat split; auto.
      * rewrite nth_error_app1; auto.
      * intros w Hw. apply in_app_iff in Hw. destruct Hw as [Hw|[<-|[]]]; auto.
      * intros k w Hk Hw. rewrite nth_error_app1 in Hw by lia. eauto.
    + intros w Hw. apply in_app_iff in Hw. destruct Hw as [Hw|[<-|[]]]; auto.
  - assert (New : (forall w, In w done -> ltb w v = false) ->
                  (forall k w, nth_error done k = Some w -> leb w v = false) ->
                  argmin_inv (Some (List.length done, v)) (done ++ [v])).
    { intros A B. cbn [argmin_inv]. repeat split; auto.
      - rewrite nth_error_app2, Nat.sub_diag; auto.
      - intros w Hw. apply in_app_iff in Hw. destruct Hw as [Hw|[<-|[]]]; auto.
        apply ltb_irrefl.
      - intros k w Hk Hw. rewrite nth_error_app1 in Hw by lia. eauto. }
    destruct best as [[bi bv]|]; cbn [argmin_inv] in I.
    + destruct I as (I1 & I2 & I3 & I4).
      destruct (ltb v bv) eqn:E.
      * apply New.
        -- intros w Hw. destruct (ltb w v) eqn:F; [exfalso | reflexivity].
           pose proof (ltb_trans _ _ _ F E) as T.
           rewrite (I3 w Hw) in T. discriminate.
        -- intros k w Hw. apply nth_error_In in Hw.
           destruct (is_nan w) eqn:Nw.
           ++ apply is_nan_eq in Nw. subst w. reflexivity.
           ++ apply ltb_leb_false.
              exact (ltb_below _ _ _ Nw (I3 w Hw) E).
      * assert (Bi : bi < List.length done) by (apply nth_error_Some; congruence).
        cbn [argmin_inv]. repeat split; auto.
        -- rewrite nth_error_app1; auto.
        -- intros w Hw. apply in_app_iff in Hw.
           destruct Hw as [Hw|[<-|[]]]; auto.
        -- intros k w Hk Hw. rewrite nth_error_app1 in Hw by lia. eauto.
    + apply New.
      * intros w Hw. apply I, is_nan_eq in Hw. subst w. reflexivity.
      * intros k w Hw. apply nth_error_In, I, is_nan_eq in Hw. subst w.
        reflexivity.
Qed.

Lemma argmin_from_inv (l done : list float64) (best : option (nat * float64)) :
  argmin_inv best done ->
  argmin_inv (argmin_from best (List.length done) l) (done ++ l).
Proof.
  revert done best. induction l as [|v l IH]; intros done best I;
    cbn [argmin_from].
  - now rewrite app_nil_r.
  - replace (done ++ v :: l) with ((done ++ [v]) ++ l)
      by (now rewrite <- app_assoc).
    replace (S (List.length done)) with (List.length (done ++ [v]))
      by (rewrite length_app; simpl; lia).
    apply IH, argmin_step_inv, I.
Qed.

Lemma argmin_spec (l : list float64) : argmin_inv (argmin_from None 0 l) l.
Proof. apply (argmin_from_inv l [] None). intros w []. Qed.

Lemma numbers_nth (vs : list cell) (l : list float64) (i : nat) (v : float64) :
  numbers vs = Ok l -> nth_error l i = Some v ->
  nth i vs (Number nan) = Number v.
Proof.
  revert l i. induction vs as [|c vs IH]; intros l i; cbn [numbers].
  - intros [= <-]. destruct i; discriminate.
  - destruct c as [x|s]; [ | discriminate].
    destruct (numbers vs) as [t|e]; cbn [bind]; [ | discriminate].
    intros [= <-]. destruct i as [|i]; simpl.
    + now intros [= ->].
    + now apply IH.
Qed.

Lemma get_item_loc (nm : string) (data : table) (vs : list cell) (i : nat) :
  get_column nm data = Ok vs ->
  get_item nm (loc data i) = Ok (nth i vs (Number nan)).
Proof.
  induction data as [|[n c] data IH]; cbn [get_column loc map get_item fst snd];
    [discriminate | ].
  destruct (String.eqb nm n); [now intros [= ->] | exact IH].
Qed.

End SingleFacts.

(** C10. When the table has no [adj_RSS_uncertainty] column, the selection
    falls back on the column [RSS of uncertainty increases [%]]: given
    that column with at least one number in it, and the four columns of
    the reference point, it does not fail; it returns the first row whose
    value in that column is the smallest, and reports that value. *)
Theorem single_mode_legacy_fallback (data : Selector.table)
    (col cx cy cz crix : list cell) (l : list float64) :
  Selector.in_columns Selector.adj_col data = false ->
  Selector.get_column Selector.legacy_col data = Ok col ->
  Selector.numbers col = Ok l ->
  (exists v, In v l /\ is_nan v = false) ->
  Selector.get_column "Reference Point X [m]" data = Ok cx ->
  Selector.get_column "Reference Point Y [m]" data = Ok cy ->
  Selector.get_column "Reference Point Z [m]" data = Ok cz ->
  Selector.get_column "Reference RIX [%]" data = Ok crix ->
  exists i v,
    Selector.process_best_single_met_mast data =
    Ok {| Selector.point := (nth i cx (Number nan), nth i cy (Number nan));
          Selector.attributes :=
            [nth i cx (Number nan); nth i cy (Number nan);
             nth i cz (Number nan); nth i crix (Number nan); Number v];
          Selector.rss_field := Selector.legacy_col |} /\
    nth_error l i = Some v /\ is_nan v = false /\
    (forall w, In w l -> ltb w v = false) /\
    (forall k w, k < i -> nth_error l k = Some w -> leb w v = false).
Proof.
  intros Hadj Hcol Hnum (v0 & Hv0 & Nv0) Hx Hy Hz Hr.
  pose proof (argmin_spec l) as A.
  destruct (Selector.argmin_from None 0 l) as [[i v]|] eqn:E;
    cbn [argmin_inv] in A.
  - destruct A as (A1 & A2 & A3 & A4).
    exists i, v. split; [ | auto].
    unfold Selector.process_best_single_met_mast. rewrite Hadj, Hcol.
    cbn [bind]. unfold Selector.idxmin. rewrite Hnum. cbn [bind].
    rewrite E. cbn [bind].
    rewrite (get_item_loc _ _ _ i Hx), (get_item_loc _ _ _ i Hy),
            (get_item_loc _ _ _ i Hz), (get_item_loc _ _ _ i Hr),
            (get_item_loc _ _ _ i Hcol).
    cbn [bind]. now rewrite (numbers_nth col l i v Hnum A1).
  - rewrite (A v0 Hv0) in Nv0. discriminate.
Qed.

Lemma single_mode_legacy_fallback_witness :
  exists i v,
    Selector.process_best_single_met_mast legacy_table =
    Ok {| Selector.point := (nth i [Number (of_Z 10); Number (of_Z 20); Number (of_Z 30)] (Number nan),
                             nth i [Number (of_Z 11); Number (of_Z 21); Number (of_Z 31)] (Number nan));
          Selector.attributes :=
            [nth i [Number (of_Z 10); Number (of_Z 20); Number (of_Z 30)] (Number nan);
             nth i [Number (of_Z 11); Number (of_Z 21); Number (of_Z 31)] (Number nan);
             nth i [Number (of_Z 12); Number (of_Z 22); Number (of_Z 32)] (Number nan);
             nth i [Number (of_Z 1); Number (of_Z 2); Number (of_Z 3)] (Number nan);
             Number v];
          Selector.rss_field := Selector.legacy_col |} /\
    nth_error [of_Z 7; of_Z 4; of_Z 4] i = Some v.
Proof.
  destruct (single_mode_legacy_fallback legacy_table
              [Number (of_Z 7); Number (of_Z 4); Number (of_Z 4)]
              [Number (of_Z 10); Number (of_Z 20); Number (of_Z 30)]
              [Number (of_Z 11); Number (of_Z 21); Number (of_Z 31)]
              [Number (of_Z 12); Number (of_Z 22); Number (of_Z 32)]
              [Number (of_Z 1); Number (of_Z 2); Number (of_Z 3)]
              [of_Z 7; of_Z 4; of_Z 4])
    as (i & v & P & N & _); try reflexivity.
  - exists (of_Z 7). split; [now left | reflexivity].
  - exists i, v. split; [exact P | exact N].
Defined.

Example legacy_table_selection :
  Selector.process_best_single_met_mast legacy_table =
  Ok {| Selector.point := (Number (of_Z 20), Number (of_Z 21));
        Selector.attributes :=
          [Number (of_Z 20); Number (of_Z 21); Number (of_Z 22);
           Number (of_Z 2); Number (of_Z 4)];
        Selector.rss_field := "RSS of uncertainty increases [%]" |}.
Proof. vm_compute. reflexivity. Qed.

(** ** Reading the file *)

Section ParserFacts.
Import Parser.




End ParserFacts.




(** * Further properties of the processing *)

(** ** Reading: the lines after the marker *)

Lemma data_lines_stop (pre rest : list string) (marker : string) :
  Parser.is_stop marker = true ->
  Parser.data_lines (pre ++ marker :: rest) = Parser.data_lines pre.
Proof.
  intros H. induction pre as [|l pre IH]; cbn [app Parser.data_lines].
  - now rewrite H.
  - destruct (Parser.is_stop l); [reflexivity | now rewrite IH].
Qed.

(** X1. Whatever follows the first line that starts with [Assumptions:] or
    with a star has no part in the result: the run on the whole file is the
    run on the lines above that line. *)
Theorem footer_lines_are_ignored (decode : string -> cell)
    (pre rest : list string) (marker : string) :
  Parser.is_stop marker = true ->
  Parser.aggregate_process_trix_file decode (pre ++ marker :: rest) =
  Parser.aggregate_process_trix_file decode pre.
Proof.
  intros H. unfold Parser.aggregate_process_trix_file.
  now rewrite (data_lines_stop pre rest marker H).
Qed.

Lemma footer_lines_are_ignored_witness :
  Parser.aggregate_process_trix_file no_decode
    ([header_line] ++ "Assumptions: flat terrain" :: ["WTG X [m]"; "12"]) =
  Parser.aggregate_process_trix_file no_decode [header_line].
Proof. apply footer_lines_are_ignored. reflexivity. Defined.

(** ** Identifiers *)







(** ** Appending rows *)

Section AppendFacts.
Context {A : Type}.
Variable eq_dec : forall x y : A, {x = y} + {x <> y}.




End AppendFacts.




(** ** Missing distance and vertical uncertainty *)

(** X4. A row whose horizontal distance or whose vertical uncertainty is
    missing or not a number gets NaN as adjusted RSS uncertainty: these two
    columns have no substitute. *)
Theorem missing_distance_or_vertical_gives_nan (df : list row) (i : nat)
    (r : row) :
  nth_error df i = Some r ->
  is_nan (to_numeric (horizontal_distance r)) = true \/
  is_nan (to_numeric (vertical_uc r)) = true ->
  exists e,
    nth_error (Aggregator.df_data (Aggregator.aggregate df)) i = Some e /\
    source e = r /\ adj_RSS_uncertainty e = nan.
Proof.
  intros Hr H.
  rewrite aggregate_df_data, nth_error_map, Hr. cbn [option_map].
  eexists. split; [reflexivity | ]. split; [reflexivity | ].
  cbn [Aggregator.enrich adj_RSS_uncertainty].
  destruct H as [H|H]; apply is_nan_eq in H; rewrite H.
  - change (div nan (of_Z 1000)) with nan. rewrite add_nan_r. reflexivity.
  - change (square nan) with nan. rewrite add_nan_r. reflexivity.
Qed.

Lemma missing_distance_or_vertical_gives_nan_witness :
  exists e,
    nth_error (Aggregator.df_data
                 (Aggregator.aggregate
                    [row_uc (Number (of_Z 1)) (Text "far") (Number (of_Z 2))
                            (Number (of_Z 3))])) 0 = Some e /\
    adj_RSS_uncertainty e = nan.
Proof.
  destruct (missing_distance_or_vertical_gives_nan
              [row_uc (Number (of_Z 1)) (Text "far") (Number (of_Z 2))
                      (Number (of_Z 3))] 0
              (row_uc (Number (of_Z 1)) (Text "far") (Number (of_Z 2))
                      (Number (of_Z 3))))
    as (e & H1 & _ & H2); [reflexivity | left; reflexivity | ].
  exists e. auto.
Defined.

(** ** Pair mode: rows, lines and outcomes *)




Lemma combinations2_length (n : nat) :
  2 * List.length (Selector.combinations2 n) = n * (n - 1).
Proof.
  unfold Selector.combinations2.
  assert (G : forall len k, k + len = n ->
             2 * List.length
                   (flat_map (fun i => map (fun j => (i, j)) (seq (S i) (n - S i)))
                             (seq k len)) = len * (len - 1)).
  { induction len as [|len IH]; intros k Hk; [reflexivity | ].
    cbn [seq flat_map]. rewrite length_app, length_map, length_seq.
    specialize (IH (S k) ltac:(lia)).
    replace (n - S k) with len by lia. nia. }
  apply (G n 0). lia.
Qed.

(** X6. The all-pairs list has one line for each of the n (n - 1) / 2
    pairs of distinct mast positions. *)
Theorem all_pairs_line_count (df : list enriched)
    (out : Selector.pair_output) (lines : list Selector.pair_line) :
  Selector.process_best_two_met_mast df true = Ok out ->
  Selector.all_pairs out = Some lines ->
  2 * List.length lines =
  List.length (Selector.masts df) * (List.length (Selector.masts df) - 1).
Proof.
  intros P L.
  pose proof (process_best_two_cases df true) as C. cbv zeta in C.
  destruct (Selector.best_pair _) as [[b0 b1]|]; [ | congruence].
  destruct C as (c0 & c1 & _ & _ & _ & _ & P').
  rewrite P' in P. injection P as <-. cbn [Selector.all_pairs] in L.
  injection L as <-. unfold Selector.all_pairs_csv.
  rewrite length_map. apply combinations2_length.
Qed.

Lemma all_pairs_line_count_witness :
  exists lines : list Selector.pair_line,
    2 * List.length lines = 3 * 2 /\
                List.length (Selector.masts two_by_three) = 3.
Proof.
  destruct (Selector.process_best_two_met_mast two_by_three true)
    as [out|e] eqn:P; [ | vm_compute in P; discriminate].
  destruct (Selector.all_pairs out) as [lines|] eqn:L.
  - exists lines. pose proof (all_pairs_line_count two_by_three out lines P L) as H.
    assert (M : List.length (Selector.masts two_by_three) = 3)
      by (vm_compute; reflexivity).
    rewrite M in H. split; [exact H | exact M].
  - exfalso. vm_compute in P. injection P as <-. discriminate L.
Defined.

(** X7. The only exception of the pair search is the [TypeError] of
    subscripting [best_pair] while it is [None], and it is raised exactly
    when no pair of masts totals below infinity (no pair at all, or only
    totals that are NaN or infinite). *)
Theorem pair_mode_only_type_error (df : list enriched) (noerror : bool) :
  let values := Selector.rss_values df in
  let pairs := Selector.combinations2 (List.length (Selector.masts df)) in
  (Selector.process_best_two_met_mast df noerror = Raise "TypeError" <->
   forall p, In p pairs -> ltb (Selector.total_rss_of values p) inf = false) /\
  (forall exn, Selector.process_best_two_met_mast df noerror = Raise exn ->
               exn = "TypeError").
Proof.
  intros values pairs.
  pose proof (process_best_two_cases df noerror) as C. cbv zeta in C.
  pose proof (search_pairs_inv values (List.length (Selector.masts df)))
    as (_ & B & S).
  fold values in C.
  destruct (Selector.best_pair
              (Selector.search_pairs values (List.length (Selector.masts df))))
    as [[b0 b1]|] eqn:Eb.
  - destruct C as (c0 & c1 & Hlt & _ & _ & _ & P).
    destruct S as (_ & _ & L & _).
    split; [split | ].
    + rewrite P. discriminate.
    + intros H. rewrite H in L; [discriminate | ].
      apply combinations2_In. exact Hlt.
    + intros exn. rewrite P. discriminate.
  - split; [split | ].
    + intros _ p Hp. rewrite <- S. now apply B.
    + intros _. exact C.
    + intros exn. rewrite C. now intros [= <-].
Qed.

(** X8. When the pair search returns, it returns exactly two features,
    for two masts at different positions, in the order of their first
    occurrence in the table, both with the same [pair_total_rss]. *)
Theorem selected_masts_are_distinct (df : list enriched) (noerror : bool)
    (out : Selector.pair_output) :
  Selector.process_best_two_met_mast df noerror = Ok out ->
  exists f1 f2 b0 b1,
    Selector.features out = [f1; f2] /\
    b0 < b1 /\
    nth_error (Selector.masts df) b0
      = Some (Selector.f_x f1, Selector.f_y f1, Selector.f_z f1) /\
    nth_error (Selector.masts df) b1
      = Some (Selector.f_x f2, Selector.f_y f2, Selector.f_z f2) /\
    (Selector.f_x f1, Selector.f_y f1, Selector.f_z f1) <>
    (Selector.f_x f2, Selector.f_y f2, Selector.f_z f2) /\
    Selector.pair_total_rss f1 = Selector.pair_total_rss f2.
Proof.
  intros P.
  pose proof (process_best_two_cases df noerror) as C. cbv zeta in C.
  destruct (Selector.best_pair _) as [[b0 b1]|]; [ | congruence].
  destruct C as (c0 & c1 & Hlt & _ & E0 & E1 & P').
  rewrite P' in P. injection P as <-. cbn [Selector.features].
  eexists. eexists. exists b0, b1.
  split; [reflexivity | ]. split; [lia | ].
  destruct c0 as [[x0 y0] z0], c1 as [[x1 y1] z1].
  cbn [Selector.make_feature Selector.f_x Selector.f_y Selector.f_z
       Selector.pair_total_rss].
  split; [exact E0 | ]. split; [exact E1 | ]. split; [ | reflexivity].
  intros E. rewrite <- E in E1.
  assert (ND : NoDup (Selector.masts df)) by apply drop_duplicates_NoDup.
  rewrite NoDup_nth_error in ND.
  assert (b0 = b1); [ | lia].
  apply ND; [lia | congruence].
Qed.

Lemma selected_masts_are_distinct_witness :
  exists f1 f2 : Selector.feature,
    (Selector.f_x f1, Selector.f_y f1, Selector.f_z f1) <>
    (Selector.f_x f2, Selector.f_y f2, Selector.f_z f2).
Proof.
  destruct (Selector.process_best_two_met_mast two_by_three true)
    as [out|e] eqn:P; [ | vm_compute in P; discriminate].
  destruct (selected_masts_are_distinct two_by_three true out P)
    as (f1 & f2 & _ & _ & _ & _ & _ & _ & N & _).
  exists f1, f2. exact N.
Defined.

(** ** Pair mode: the names of the selected masts *)

Lemma SFeqb_nan_r (x : float64) : SFeqb x nan = false.
Proof. destruct x as [s|s| |s m e]; try destruct s; reflexivity. Qed.

Lemma SFeqb_refl (x : float64) : is_nan x = false -> SFeqb x x = true.
Proof.
  intros N. unfold SFeqb. rewrite compare_key.
  destruct (key_some x N) as (a & ->).
  pose proof (lex_compare_spec a a) as H.
  destruct (lex_compare a a); [reflexivity | | ];
    now apply lex_lt_irrefl in H.
Qed.

Lemma cell_eqb_refl (c : cell) :
  cell_is_nan c = false -> Selector.cell_eqb c c = true.
Proof.
  destruct c as [v|s]; cbn [cell_is_nan Selector.cell_eqb].
  - apply SFeqb_refl.
  - intros _. apply String.eqb_refl.
Qed.

Lemma cell_eqb_nan_r (a c : cell) :
  cell_is_nan c = true -> Selector.cell_eqb a c = false.
Proof.
  destruct c as [v|s]; cbn [cell_is_nan]; [ | discriminate].
  intros N. apply is_nan_eq in N. subst v.
  destruct a as [w|t]; cbn [Selector.cell_eqb]; [apply SFeqb_nan_r | reflexivity].
Qed.

Lemma get_mast_id_filter (ums : list Selector.mast_record) (c : key3) :
  Selector.get_mast_id ums c =
  match filter (fun um => let '(x, y, z, _) := fst um in same_coords (x, y, z) c)
               ums with
  | [] => Some ""
  | um :: _ => snd um
  end.
Proof.
  destruct c as [[cx cy] cz]. unfold Selector.get_mast_id.
  replace (filter (fun um => let '(x, y, z, _) := fst um in same_coords (x, y, z) (cx, cy, cz)) ums)
    with (filter (fun um : Selector.mast_record =>
                    let '(x, y, z, _) := fst um in
                    andb (andb (Selector.cell_eqb x cx) (Selector.cell_eqb y cy))
                         (Selector.cell_eqb z cz)) ums);
    [reflexivity | ].
  apply filter_ext. intros [[[[x y] z] r] i]. reflexivity.
Qed.

(** X9. The name of a selected mast is looked up by comparing coordinates
    with [==]. A position with a NaN coordinate never compares equal, not
    even to itself, and gets the empty name; any other position of the
    table gets the identifier carried by a row of the table at that
    position. *)
Theorem mast_name_lookup (df : list enriched) (c : key3) :
  In c (Selector.masts df) ->
  (has_nan_coord c = true ->
   Selector.get_mast_id (Selector.unique_masts df) c = Some "") /\
  (has_nan_coord c = false ->
   exists e, In e df /\ same_coords (Selector.ref_xyz e) c = true /\
             Selector.get_mast_id (Selector.unique_masts df) c = mast_id e).
Proof.
  intros Hc. rewrite get_mast_id_filter. split.
  - intros N.
    replace (filter _ (Selector.unique_masts df)) with (@nil Selector.mast_record);
      [reflexivity | ].
    symmetry. induction (Selector.unique_masts df) as [|um l IH];
      cbn [filter]; [reflexivity | ].
    rewrite <- IH.
    destruct um as [[[[x y] z] r] i]. cbn [fst].
    destruct c as [[cx cy] cz]. cbn [same_coords has_nan_coord] in *.
    apply orb_true_iff in N. destruct N as [N|N];
      [apply orb_true_iff in N; destruct N as [N|N] | ].
    + now rewrite (cell_eqb_nan_r x cx N).
    + rewrite (cell_eqb_nan_r y cy N). now rewrite andb_false_r.
    + rewrite (cell_eqb_nan_r z cz N). now rewrite andb_false_r.
  - intros N.
    apply drop_duplicates_In, in_map_iff in Hc. destruct Hc as (e0 & E0 & I0).
    assert (R : same_coords c c = true).
    { destruct c as [[cx cy] cz]. cbn [same_coords has_nan_coord] in *.
      apply orb_false_iff in N. destruct N as (N & Nz).
      apply orb_false_iff in N. destruct N as (Nx & Ny).
      now rewrite !cell_eqb_refl. }
    match goal with |- context [filter ?f _] => set (P := f) end.
    assert (M : In (Selector.ref_id_cols e0)
                  (filter P (Selector.unique_masts df))).
    { apply filter_In. split.
      - apply drop_duplicates_In. now apply in_map.
      - unfold P, Selector.ref_id_cols, ref_cols. cbn [fst].
        unfold Selector.ref_xyz in E0. now rewrite E0. }
    destruct (filter P (Selector.unique_masts df)) as [|um l] eqn:F;
      [destruct M | ].
    assert (U : In um (filter P (Selector.unique_masts df)))
      by (rewrite F; now left).
    apply filter_In in U. destruct U as (U1 & U2).
    apply drop_duplicates_In, in_map_iff in U1. destruct U1 as (e & <- & Ie).
    exists e. split; [exact Ie | ]. split; [ | reflexivity].
    unfold P, Selector.ref_id_cols, ref_cols in U2. cbn [fst] in U2. exact U2.
Qed.

Lemma mast_name_lookup_witness :
  Selector.get_mast_id (Selector.unique_masts two_by_three)
    (Number (of_Z 2), Number zero, Number zero) = Some "Mast_02".
Proof.
  destruct (mast_name_lookup two_by_three
              (Number (of_Z 2), Number zero, Number zero))
    as (_ & H).
  - vm_compute. auto.
  - destruct (H eq_refl) as (e & _ & _ & _). vm_compute. reflexivity.
Defined.

(** ** Pair mode: what the search reads *)

Lemma fill_matrix_view (ts ms : list key3) (df : list enriched) :
  Selector.fill_matrix ts ms df =
  fold_left (fun m v => Selector.set_at ts ms m (fst (fst v)) (snd (fst v)) (snd v))
            (map search_view df)
            (Selector.empty_matrix (List.length ts) (List.length ms)).
Proof.
  unfold Selector.fill_matrix.
  generalize (Selector.empty_matrix (List.length ts) (List.length ms)) as m.
  induction df as [|e df IH]; intros m; cbn [map fold_left]; [reflexivity | ].
  apply IH.
Qed.

(** X10. The pair search reads the positions and the adjusted RSS
    uncertainty of the rows and nothing else: two tables that agree on
    these agree on the matrix, on the selected positions, on
    [pair_total_rss], on every total, average and flag of the all-pairs
    list, and on the exception when there is one. RIX values and
    identifiers only reach the names. *)
Theorem pair_search_reads_positions_only (df df' : list enriched)
    (noerror : bool) :
  map search_view df = map search_view df' ->
  Selector.rss_values df = Selector.rss_values df' /\
  match Selector.process_best_two_met_mast df noerror,
        Selector.process_best_two_met_mast df' noerror with
  | Ok o, Ok o' =>
      map feature_values (Selector.features o) =
        map feature_values (Selector.features o') /\
      option_map (map line_values) (Selector.all_pairs o) =
        option_map (map line_values) (Selector.all_pairs o')
  | Raise a, Raise b => a = b
  | _, _ => False
  end.
Proof.
  intros V.
  assert (W : forall l, map Selector.wtg_xyz l =
                        map (fun v => fst (fst v)) (map search_view l))
    by (intros l; rewrite map_map; reflexivity).
  assert (X : forall l, map Selector.ref_xyz l =
                        map (fun v => snd (fst v)) (map search_view l))
    by (intros l; rewrite map_map; reflexivity).
  assert (T : Selector.turbines df = Selector.turbines df')
    by (unfold Selector.turbines; now rewrite (W df), (W df'), V).
  assert (M : Selector.masts df = Selector.masts df')
    by (unfold Selector.masts; now rewrite (X df), (X df'), V).
  assert (R : Selector.rss_values df = Selector.rss_values df').
  { unfold Selector.rss_values. now rewrite !fill_matrix_view, T, M, V. }
  split; [exact R | ].
  pose proof (process_best_two_cases df noerror) as C. cbv zeta in C.
  pose proof (process_best_two_cases df' noerror) as C'. cbv zeta in C'.
  rewrite <- R, <- M, <- T in C'.
  destruct (Selector.best_pair _) as [[b0 b1]|].
  - destruct C as (c0 & c1 & _ & _ & E0 & E1 & ->).
    destruct C' as (c0' & c1' & _ & _ & E0' & E1' & ->).
    assert (c0' = c0) by congruence. assert (c1' = c1) by congruence.
    subst c0' c1'. cbn [Selector.features Selector.all_pairs]. split.
    + destruct c0 as [[? ?] ?], c1 as [[? ?] ?]. reflexivity.
    + destruct noerror; [ | reflexivity]. cbn [option_map]. f_equal.
      unfold Selector.all_pairs_csv. rewrite !map_map, <- R, <- M, <- T.
      reflexivity.
  - rewrite C, C'. reflexivity.
Qed.

Lemma pair_search_reads_positions_only_witness :
  Selector.rss_values same_position =
  Selector.rss_values (enriched_of [reading 1 1 0 5; reading 1 1 0 6]).
Proof.
  assert (V : map search_view same_position =
              map search_view (enriched_of [reading 1 1 0 5; reading 1 1 0 6]))
    by (vm_compute; reflexivity).
  destruct (pair_search_reads_positions_only same_position
              (enriched_of [reading 1 1 0 5; reading 1 1 0 6]) true V)
    as (R & _).
  exact R.
Defined.

(** ** Single mode: the column in use and the conditions of success *)

Lemma get_column_in_columns (nm : string) (data : Selector.table)
    (col : list cell) :
  Selector.get_column nm data = Ok col -> Selector.in_columns nm data = true.
Proof.
  unfold Selector.in_columns.
  induction data as [|[n c] data IH]; cbn [Selector.get_column map existsb fst];
    [discriminate | ].
  destruct (String.eqb nm n); [reflexivity | exact IH].
Qed.

Lemma get_item_loc_inv (nm : string) (data : Selector.table) (i : nat)
    (c : cell) :
  Selector.get_item nm (Selector.loc data i) = Ok c ->
  exists vs, Selector.get_column nm data = Ok vs /\ c = nth i vs (Number nan).
Proof.
  induction data as [|[n vs] data IH];
    cbn [Selector.get_column Selector.loc map Selector.get_item fst snd];
    [discriminate | ].
  destruct (String.eqb nm n); [ | exact IH].
  intros [= <-]. now exists vs.
Qed.

(** X11. When the table has an [adj_RSS_uncertainty] column, the selection
    goes by it, whatever the table holds under the former column name:
    the first row with the smallest adjusted value is returned and its
    value reported under [adj_RSS_uncertainty]. *)
Theorem single_mode_prefers_adjusted (data : Selector.table)
    (col cx cy cz crix : list cell) (l : list float64) :
  Selector.get_column Selector.adj_col data = Ok col ->
  Selector.numbers col = Ok l ->
  (exists v, In v l /\ is_nan v = false) ->
  Selector.get_column "Reference Point X [m]" data = Ok cx ->
  Selector.get_column "Reference Point Y [m]" data = Ok cy ->
  Selector.get_column "Reference Point Z [m]" data = Ok cz ->
  Selector.get_column "Reference RIX [%]" data = Ok crix ->
  exists i v,
    Selector.process_best_single_met_mast data =
    Ok {| Selector.point := (nth i cx (Number nan), nth i cy (Number nan));
          Selector.attributes :=
            [nth i cx (Number nan); nth i cy (Number nan);
             nth i cz (Number nan); nth i crix (Number nan); Number v];
          Selector.rss_field := Selector.adj_col |} /\
    nth_error l i = Some v /\ is_nan v = false /\
    (forall w, In w l -> ltb w v = false) /\
    (forall k w, k < i -> nth_error l k = Some w -> leb w v = false).
Proof.
  intros Hcol Hnum (v0 & Hv0 & Nv0) Hx Hy Hz Hr.
  pose proof (argmin_spec l) as A.
  destruct (Selector.argmin_from None 0 l) as [[i v]|] eqn:E;
    cbn [argmin_inv] in A.
  - destruct A as (A1 & A2 & A3 & A4).
    exists i, v. split; [ | auto].
    unfold Selector.process_best_single_met_mast.
    rewrite (get_column_in_columns _ _ _ Hcol), Hcol.
    cbn [bind]. unfold Selector.idxmin. rewrite Hnum. cbn [bind].
    rewrite E. cbn [bind].
    rewrite (get_item_loc _ _ _ i Hx), (get_item_loc _ _ _ i Hy),
            (get_item_loc _ _ _ i Hz), (get_item_loc _ _ _ i Hr),
            (get_item_loc _ _ _ i Hcol).
    cbn [bind]. now rewrite (numbers_nth col l i v Hnum A1).
  - rewrite (A v0 Hv0) in Nv0. discriminate.
Qed.

Lemma single_mode_prefers_adjusted_witness :
  exists i v,
    Selector.process_best_single_met_mast
      (("adj_RSS_uncertainty", [Number (of_Z 3); Number (of_Z 9); Number (of_Z 9)])
       :: legacy_table) =
    Ok {| Selector.point := (nth i [Number (of_Z 10); Number (of_Z 20); Number (of_Z 30)] (Number nan),
                             nth i [Number (of_Z 11); Number (of_Z 21); Number (of_Z 31)] (Number nan));
          Selector.attributes :=
            [nth i [Number (of_Z 10); Number (of_Z 20); Number (of_Z 30)] (Number nan);
             nth i [Number (of_Z 11); Number (of_Z 21); Number (of_Z 31)] (Number nan);
             nth i [Number (of_Z 12); Number (of_Z 22); Number (of_Z 32)] (Number nan);
             nth i [Number (of_Z 1); Number (of_Z 2); Number (of_Z 3)] (Number nan);
             Number v];
          Selector.rss_field := Selector.adj_col |} /\
    nth_error [of_Z 3; of_Z 9; of_Z 9] i = Some v.
Proof.
  destruct (single_mode_prefers_adjusted
              (("adj_RSS_uncertainty", [Number (of_Z 3); Number (of_Z 9); Number (of_Z 9)])
               :: legacy_table)
              [Number (of_Z 3); Number (of_Z 9); Number (of_Z 9)]
              [Number (of_Z 10); Number (of_Z 20); Number (of_Z 30)]
              [Number (of_Z 11); Number (of_Z 21); Number (of_Z 31)]
              [Number (of_Z 12); Number (of_Z 22); Number (of_Z 32)]
              [Number (of_Z 1); Number (of_Z 2); Number (of_Z 3)]
              [of_Z 3; of_Z 9; of_Z 9])
    as (i & v & P & N & _); try reflexivity.
  - exists (of_Z 3). split; [now left | reflexivity].
  - exists i, v. split; [exact P | exact N].
Defined.



(** ** The coordinate reference system of a city *)

Lemma get_coordinates_first (t : list Plugin.city_row) (c n : string) :
  match Plugin.get_coordinates t c n with
  | None => forall r, In r t -> ~ is_city c n r
  | Some xy =>
      exists pre r post,
        t = pre ++ r :: post /\ is_city c n r /\
        xy = (Plugin.lng r, Plugin.lat r) /\
        forall r', In r' pre -> ~ is_city c n r'
  end.
Proof.
  assert (M : forall r, andb (Plugin.name_is (Plugin.country r) c)
                             (Plugin.name_is (Plugin.city r) n) = true <->
                        is_city c n r).
  { intros r. unfold is_city, Plugin.name_is. rewrite andb_true_iff.
    destruct (Plugin.country r) as [a|], (Plugin.city r) as [b|];
      try rewrite !String.eqb_eq; split; intros [H1 H2];
      try discriminate; split; congruence. }
  unfold Plugin.get_coordinates.
  induction t as [|r t IH]; cbn [filter]; [intros r [] | ].
  destruct (andb _ _) eqn:E.
  - exists [], r, t. repeat split; try (now apply M). intros r' [].
  - destruct (filter _ t) as [|r0 l].
    + intros r' [<-|H]; [ | now apply IH].
      intros C. apply M in C. congruence.
    + destruct IH as (pre & r1 & post & -> & C & X & N).
      exists (r :: pre), r1, post. repeat split; auto; try apply C.
      intros r' [<-|H]; [ | now apply N].
      intros C'. apply M in C'. congruence.
Qed.

(** X13. [get_crs] goes by the first row of the cities table that has the
    country and the city of the dialog, taking its longitude first and its
    latitude second; when the table has no such row it raises
    [TypeError]. *)
Theorem get_crs_uses_first_match (s : Plugin.session) (d : Plugin.dialog) :
  let c := Plugin.country_input d in
  let n := Plugin.city_input d in
  ((forall r, In r (Plugin.cities_by_country s) -> ~ is_city c n r) ->
   Plugin.get_crs s d = Raise "TypeError") /\
  (forall pre r post,
     Plugin.cities_by_country s = pre ++ r :: post ->
     is_city c n r ->
     (forall r', In r' pre -> ~ is_city c n r') ->
     Plugin.get_crs s d =
     Plugin.get_utm_crs_from_lonlat (Plugin.lng r) (Plugin.lat r) 5).
Proof.
  intros c n. unfold Plugin.get_crs. fold c n.
  pose proof (get_coordinates_first (Plugin.cities_by_country s) c n) as G.
  destruct (Plugin.get_coordinates (Plugin.cities_by_country s) c n)
    as [[x y]|].
  - destruct G as (pre & r & post & E & C & X & N). split.
    + intros H. exfalso. apply (H r); [ | exact C].
      rewrite E. apply in_app_iff. right. now left.
    + intros pre' r' post' E' C' N'.
      assert (P : pre' = pre /\ r' = r).
      { rewrite E in E'. clear - E' C C' N N'.
        revert pre' E' N'. induction pre as [|a pre IH]; intros [|b pre'] E' N';
          cbn [app] in E'.
        - injection E' as E1 _. auto.
        - injection E' as E1 _. subst. exfalso.
          exact (N' _ (or_introl eq_refl) C).
        - injection E' as E1 _. subst. exfalso.
          exact (N _ (or_introl eq_refl) C').
        - injection E' as E1 E'. subst.
          destruct (IH (fun x Hx => N x (or_intror Hx)) pre' E'
                       (fun x Hx => N' x (or_intror Hx))) as (-> & ->).
          auto. }
      destruct P as (_ & ->). now injection X as -> ->.
  - split; [reflexivity | ].
    intros pre r post E C _. exfalso. apply (G r); [ | exact C].
    rewrite E. apply in_app_iff. right. now left.
Qed.

Lemma get_crs_uses_first_match_witness :
  Plugin.get_crs sample_session (sample_dialog "" "Paris" "Single") =
  Plugin.get_utm_crs_from_lonlat (of_Z 2) (of_Z 49) 5.
Proof.
  destruct (get_crs_uses_first_match sample_session
              (sample_dialog "" "Paris" "Single")) as (_ & A).
  refine (A [{| Plugin.country := Some "France"; Plugin.city := Some "Lyon";
                Plugin.lng := of_Z 5; Plugin.lat := of_Z 46 |}]
            {| Plugin.country := Some "France"; Plugin.city := Some "Paris";
               Plugin.lng := of_Z 2; Plugin.lat := of_Z 49 |}
            [{| Plugin.country := Some "Chile"; Plugin.city := None;
                Plugin.lng := of_Z (-71); Plugin.lat := of_Z (-33) |}]
            eq_refl (conj eq_refl eq_refl) _).
  intros r' [<-|[]] (_ & C). discriminate C.
Defined.

Lemma degree_sweep :
  forallb (fun i => degree_check (Z.of_nat i - 180)) (seq 0 361) = true.
Proof. vm_compute. reflexivity. Qed.

Lemma degree_check_range (k : Z) :
  (-180 <= k <= 180)%Z -> degree_check k = true.
Proof.
  intros H. pose proof degree_sweep as S. rewrite forallb_forall in S.
  replace k with (Z.of_nat (Z.to_nat (k + 180)) - 180)%Z by lia.
  apply S, in_seq. lia.
Qed.

(** X14. On a longitude given in whole degrees from 180 West to 180 East
    the answer of [get_utm_crs_from_lonlat] is, for every latitude and
    every [precision]: nothing when the latitude is above 84 or below -80,
    and otherwise the prefix EPSG:326 (latitude at or above zero) or
    EPSG:327 followed by the zone (lon + 180) div 6 + 1 on two digits.
    The zone is between 1 and 60, except at 180 East, where it is 61. *)
Theorem utm_crs_on_whole_degrees (k : Z) (lat_ : float64) (precision : Z) :
  (-180 <= k <= 180)%Z ->
  Plugin.get_utm_crs_from_lonlat (of_Z k) lat_ precision =
    Ok (if out_of_band lat_ then None
        else Some (hemisphere_prefix lat_
                   ++ format_02d (Z.to_nat (zone_of_degrees k)))%string) /\
  (1 <= zone_of_degrees k <= 61)%Z /\
  (zone_of_degrees k = 61 <-> k = 180)%Z.
Proof.
  intros H. split.
  - pose proof (degree_check_range k H) as D. unfold degree_check in D.
    unfold Plugin.get_utm_crs_from_lonlat.
    destruct (Plugin.floor (div (add (of_Z k) (of_Z 180)) (of_Z 6)))
      as [fl|]; [ | discriminate].
    destruct (Plugin.floor (of_Z k)) as [fl_lon|]; [ | discriminate].
    apply andb_true_iff in D. destruct D as (D1 & D2).
    apply Z.eqb_eq in D1. apply negb_true_iff in D2.
    cbn [bind]. rewrite D1, D2.
    assert (F : Plugin.format_02d_int (zone_of_degrees k) =
                format_02d (Z.to_nat (zone_of_degrees k))).
    { unfold Plugin.format_02d_int.
      destruct (Z.ltb_spec (zone_of_degrees k) 0); [ | reflexivity].
      unfold zone_of_degrees in *.
      pose proof (Z.div_pos (k + 180) 6). lia. }
    rewrite F. unfold out_of_band, hemisphere_prefix.
    destruct (5 <? precision)%Z; cbn [bind];
      destruct (orb _ _); destruct (leb zero lat_); reflexivity.
  - unfold zone_of_degrees.
    pose proof (Z.div_pos (k + 180) 6).
    assert ((k + 180) / 6 <= 60)%Z by (apply Z.div_le_upper_bound; lia).
    split; [lia | ]. split.
    + intros E. assert (60 <= (k + 180) / 6)%Z by lia.
      destruct (Z.eq_dec k 180); [assumption | exfalso].
      assert ((k + 180) / 6 < 60)%Z by (apply Z.div_lt_upper_bound; lia).
      lia.
    + intros ->. reflexivity.
Qed.

Lemma utm_crs_on_whole_degrees_witness :
  Plugin.get_utm_crs_from_lonlat (of_Z 3) (of_Z 48) 9 = Ok (Some "EPSG:32631").
Proof.
  destruct (utm_crs_on_whole_degrees 3 (of_Z 48) 9) as (E & _); [lia | ].
  rewrite E. vm_compute. reflexivity.
Defined.

(** X15. Every city that [update_cities] offers for a country is one
    [get_coordinates] finds for that country: the coordinates returned
    are those of the first row of the table with this country and this
    city, so [get_crs] does not fail on an offered city for want of
    coordinates. *)
Theorem offered_city_has_coordinates (t : list Plugin.city_row)
    (c n : string) :
  In (Some n) (Plugin.update_cities t c) ->
  exists pre r post,
    t = pre ++ r :: post /\ is_city c n r /\
    (forall r', In r' pre -> ~ is_city c n r') /\
    Plugin.get_coordinates t c n = Some (Plugin.lng r, Plugin.lat r).
Proof.
  intros H. unfold Plugin.update_cities in H.
  apply in_map_iff in H. destruct H as (r0 & E & H).
  apply filter_In in H. destruct H as (H & C).
  assert (I : is_city c n r0).
  { split; [ | exact E]. unfold Plugin.name_is in C.
    destruct (Plugin.country r0); [ | discriminate].
    apply String.eqb_eq in C. now subst. }
  pose proof (get_coordinates_first t c n) as G.
  destruct (Plugin.get_coordinates t c n) as [xy|].
  - destruct G as (pre & r & post & -> & C' & -> & N).
    exists pre, r, post. auto.
  - destruct (G r0 H I).
Qed.

Lemma offered_city_has_coordinates_witness :
  exists pre r post,
    sample_cities = pre ++ r :: post /\ is_city "France" "Paris" r /\
    (forall r', In r' pre -> ~ is_city "France" "Paris" r') /\
    Plugin.get_coordinates sample_cities "France" "Paris" =
    Some (Plugin.lng r, Plugin.lat r).
Proof.
  apply (offered_city_has_coordinates sample_cities "France" "Paris").
  vm_compute. right. left. reflexivity.
Defined.

(** ** The two buttons of the dialog *)

Lemma get_crs_ok_city (s : Plugin.session) (d : Plugin.dialog)
    (c : option string) :
  Plugin.get_crs s d = Ok c ->
  exists r, In r (Plugin.cities_by_country s) /\
            is_city (Plugin.country_input d) (Plugin.city_input d) r.
Proof.
  unfold Plugin.get_crs.
  pose proof (get_coordinates_first (Plugin.cities_by_country s)
                (Plugin.country_input d) (Plugin.city_input d)) as G.
  destruct (Plugin.get_coordinates _ _ _) as [[x y]|]; [ | discriminate].
  intros _. destruct G as (pre & r & post & E & C & _).
  exists r. split; [ | exact C].
  rewrite E. apply in_app_iff. right. now left.
Qed.

Lemma layer_exists_add_layer (s : Plugin.session) (n : string) :
  Plugin.layer_exists (Plugin.add_layer s n) n = true.
Proof.
  unfold Plugin.layer_exists, Plugin.add_layer. cbn [Plugin.layers].
  rewrite existsb_app. cbn [existsb]. rewrite String.eqb_refl.
  now rewrite orb_true_r.
Qed.

Ltac other_event H :=
  cbn [Plugin.shown Plugin.done Plugin.fails app In] in H;
  repeat (destruct H as [H|H]; try discriminate H); try (now destruct H).

(** X16. [highlight_best_met] runs a selection only with a reference
    system derived from the city: when the dialog holds a reference system
    of its own, the call does nothing at all, and whenever a selection has
    been made the reference system of the dialog was empty, country and
    city were filled in and the table of cities has a row for them. *)
Theorem highlight_needs_city_crs (s : Plugin.session) (d : Plugin.dialog) :
  (Plugin.crs d <> "" -> Plugin.output_direcory s <> None ->
   Plugin.highlight_best_met s d = Plugin.done s []) /\
  (forall ev,
     In ev (Plugin.shown (Plugin.highlight_best_met s d)) ->
     is_selection ev ->
     Plugin.crs d = "" /\ Plugin.country_input d <> "" /\
     Plugin.city_input d <> "" /\
     exists r, In r (Plugin.cities_by_country s) /\
               is_city (Plugin.country_input d) (Plugin.city_input d) r).
Proof.
  split.
  - intros Hc Ho. unfold Plugin.highlight_best_met.
    destruct (Plugin.output_direcory s); [ | congruence].
    destruct (String.eqb_spec (Plugin.crs d) ""); [congruence | reflexivity].
  - intros ev Hin Hsel. unfold Plugin.highlight_best_met in Hin.
    destruct (Plugin.output_direcory s); [ | destruct Hin].
    destruct (String.eqb_spec (Plugin.crs d) "") as [Ec|Ec]; [ | destruct Hin].
    assert (W : In ev [Plugin.display_warning
                         "Specify Project Country/City OR CRS"] -> False).
    { intros [<-|[]]. destruct Hsel. }
    destruct (String.eqb_spec (Plugin.country_input d) "") as [E1|E1];
      [ | destruct (String.eqb_spec (Plugin.city_input d) "") as [E2|E2] ];
      cbn [orb] in Hin.
    + rewrite Ec in Hin. destruct (W Hin).
    + rewrite Ec in Hin. destruct (W Hin).
    + destruct (Plugin.get_crs s d) as [c|exn] eqn:G; cbn [bind] in Hin;
        [ | destruct Hin].
      repeat split; auto. exact (get_crs_ok_city s d c G).
Qed.

Lemma highlight_needs_city_crs_witness :
  Plugin.highlight_best_met sample_session
    (sample_dialog "EPSG:2154" "Paris" "Single") =
  Plugin.done sample_session [].
Proof.
  destruct (highlight_needs_city_crs sample_session
              (sample_dialog "EPSG:2154" "Paris" "Single")) as (A & _).
  apply A; discriminate.
Defined.

Lemma highlight_single_selected (s : Plugin.session) (c : option string)
    (o : Selector.single_output) :
  In (Plugin.selected_single o) (Plugin.shown (Plugin.highlight_single s c)) ->
  Plugin.final (Plugin.highlight_single s c) =
  Plugin.add_layer s "Optimal_single_mest_mast".
Proof.
  unfold Plugin.highlight_single.
  destruct (Plugin.layer_exists s "Optimal_single_mest_mast"); cbn [negb];
    [intros H; other_event H | ].
  destruct (Plugin.mast_points_data s) as [data|]; [ | intros H; other_event H].
  destruct (Plugin.process_best_single_met_mast_crs data c);
    [reflexivity | intros H; other_event H].
Qed.

Lemma highlight_single_not_pair (s : Plugin.session) (c : option string)
    (o : Selector.pair_output) :
  ~ In (Plugin.selected_pair o) (Plugin.shown (Plugin.highlight_single s c)).
Proof.
  unfold Plugin.highlight_single.
  destruct (Plugin.layer_exists s "Optimal_single_mest_mast"); cbn [negb];
    [intros H; other_event H | ].
  destruct (Plugin.mast_points_data s) as [data|]; [ | intros H; other_event H].
  destruct (Plugin.process_best_single_met_mast_crs data c);
    intros H; other_event H.
Qed.

Lemma highlight_pair_selected (s : Plugin.session)
    (o : Selector.pair_output) :
  In (Plugin.selected_pair o) (Plugin.shown (Plugin.highlight_pair s)) ->
  Plugin.layer_exists s "Optimal_pair_mest_mast" = false /\
  Plugin.final (Plugin.highlight_pair s) =
  (if Plugin.noerror s then Plugin.add_layer s "Optimal_pair_mest_mast"
   else s).
Proof.
  unfold Plugin.highlight_pair.
  destruct (Plugin.layer_exists s "Optimal_pair_mest_mast"); cbn [negb];
    [intros H; other_event H | ].
  destruct (Plugin.df_data s) as [df|]; [ | intros H; other_event H].
  destruct (Selector.process_best_two_met_mast df (Plugin.noerror s));
    [split; reflexivity | intros H; other_event H].
Qed.

Lemma highlight_pair_not_single (s : Plugin.session)
    (o : Selector.single_output) :
  ~ In (Plugin.selected_single o) (Plugin.shown (Plugin.highlight_pair s)).
Proof.
  unfold Plugin.highlight_pair.
  destruct (Plugin.layer_exists s "Optimal_pair_mest_mast"); cbn [negb];
    [intros H; other_event H | ].
  destruct (Plugin.df_data s) as [df|]; [ | intros H; other_event H].
  destruct (Selector.process_best_two_met_mast df (Plugin.noerror s));
    intros H; other_event H.
Qed.

Lemma highlight_resolved (s : Plugin.session) (d : Plugin.dialog)
    (dir : string) (c : option string) :
  Plugin.output_direcory s = Some dir ->
  String.eqb (Plugin.crs d) "" = true ->
  orb (String.eqb (Plugin.country_input d) "")
      (String.eqb (Plugin.city_input d) "") = false ->
  Plugin.get_crs s d = Ok c ->
  Plugin.crs_given c = true ->
  Plugin.highlight_best_met s d = highlight_choice s d c.
Proof.
  intros O Ec Eo G Cg. unfold Plugin.highlight_best_met, highlight_choice.
  rewrite O, Ec, Eo, G. cbn [bind]. rewrite Cg. cbn [app].
  now destruct (if String.eqb (Plugin.comboBox d) "Single" then _ else _).
Qed.

(** X17. A selection is made once: after a call of [highlight_best_met]
    that selected the single mast, the same call on the state it left
    only warns that the layer is already generated; so does a second call
    for the pair when the shapefile of the pair was saved. When it was
    not saved the state is left as it was, and the second call repeats the
    first. *)
Theorem highlight_selects_once (s : Plugin.session) (d : Plugin.dialog) :
  let r := Plugin.highlight_best_met s d in
  (forall o, In (Plugin.selected_single o) (Plugin.shown r) ->
     Plugin.highlight_best_met (Plugin.final r) d =
     Plugin.done (Plugin.final r)
       [Plugin.display_warning "Optimal_single_mest_mast Already Generated"]) /\
  (forall o, In (Plugin.selected_pair o) (Plugin.shown r) ->
     if Plugin.noerror s
     then Plugin.highlight_best_met (Plugin.final r) d =
          Plugin.done (Plugin.final r)
            [Plugin.display_warning "Optimal_pair_mest_mast Already Generated"]
     else Plugin.highlight_best_met (Plugin.final r) d = r).
Proof.
  cbv zeta.
  assert (N : forall ev, is_selection ev ->
                In ev (Plugin.shown (Plugin.highlight_best_met s d)) ->
                exists dir c,
                  Plugin.output_direcory s = Some dir /\
                  String.eqb (Plugin.crs d) "" = true /\
                  orb (String.eqb (Plugin.country_input d) "")
                      (String.eqb (Plugin.city_input d) "") = false /\
                  Plugin.get_crs s d = Ok c /\ Plugin.crs_given c = true).
  { intros ev Hs. unfold Plugin.highlight_best_met.
    destruct (Plugin.output_direcory s) as [dir|]; [ | intros []].
    destruct (String.eqb (Plugin.crs d) "") eqn:Ec; [ | intros []].
    destruct (orb _ _) eqn:Eo.
    - apply String.eqb_eq in Ec. rewrite Ec.
      cbn [Plugin.crs_given String.eqb negb].
      intros H. other_event H.
    - destruct (Plugin.get_crs s d) as [c|exn] eqn:G; cbn [bind];
        [ | intros []].
      destruct (Plugin.crs_given c) eqn:Cg; [ | intros []].
      intros _. exists dir, c. auto. }
  split; intros o H.
  - destruct (N (Plugin.selected_single o) I H) as (dir & c & O & Ec & Eo & G & Cg).
    rewrite (highlight_resolved s d dir c O Ec Eo G Cg) in *.
    assert (R : String.eqb (Plugin.comboBox d) "Single" = true /\
                Plugin.final (highlight_choice s d c) =
                Plugin.add_layer s "Optimal_single_mest_mast").
    { unfold highlight_choice in H |- *.
      destruct (String.eqb (Plugin.comboBox d) "Single");
        [ | destruct (String.eqb (Plugin.comboBox d) "Pair");
            [destruct (highlight_pair_not_single _ _ H) | other_event H] ].
      split; [reflexivity | exact (highlight_single_selected s c o H)]. }
    destruct R as (C1 & R). rewrite R.
    rewrite (highlight_resolved
               (Plugin.add_layer s "Optimal_single_mest_mast") d dir c
               O Ec Eo G Cg).
    unfold highlight_choice. rewrite C1. unfold Plugin.highlight_single.
    now rewrite layer_exists_add_layer.
  - destruct (N (Plugin.selected_pair o) I H) as
      (dir & c & O & Ec & Eo & G & Cg).
    rewrite (highlight_resolved s d dir c O Ec Eo G Cg) in *.
    assert (R : String.eqb (Plugin.comboBox d) "Single" = false /\
                String.eqb (Plugin.comboBox d) "Pair" = true /\
                In (Plugin.selected_pair o)
                   (Plugin.shown (Plugin.highlight_pair s))).
    { unfold highlight_choice in H.
      destruct (String.eqb (Plugin.comboBox d) "Single");
        [destruct (highlight_single_not_pair _ _ _ H) | ].
      destruct (String.eqb (Plugin.comboBox d) "Pair");
        [auto | other_event H]. }
    destruct R as (C1 & C2 & H').
    assert (P : forall s', highlight_choice s' d c = Plugin.highlight_pair s')
      by (intros s'; unfold highlight_choice; now rewrite C1, C2).
    rewrite (P s).
    destruct (highlight_pair_selected s o H') as (L & F). rewrite F.
    destruct (Plugin.noerror s).
    + rewrite (highlight_resolved
                 (Plugin.add_layer s "Optimal_pair_mest_mast") d dir c
                 O Ec Eo G Cg), P.
      unfold Plugin.highlight_pair.
      now rewrite layer_exists_add_layer.
    + now rewrite (highlight_resolved s d dir c O Ec Eo G Cg), P.
Qed.

Lemma highlight_selects_once_witness :
  Plugin.highlight_best_met
    (Plugin.final (Plugin.highlight_best_met sample_session
                     (sample_dialog "" "Paris" "Single")))
    (sample_dialog "" "Paris" "Single") =
  Plugin.done
    (Plugin.final (Plugin.highlight_best_met sample_session
                     (sample_dialog "" "Paris" "Single")))
    [Plugin.display_warning "Optimal_single_mest_mast Already Generated"].
Proof.
  destruct (highlight_selects_once sample_session
              (sample_dialog "" "Paris" "Single")) as (A & _).
  refine (A {| Selector.point := (Number (of_Z 20), Number (of_Z 21));
               Selector.attributes :=
                 [Number (of_Z 20); Number (of_Z 21); Number (of_Z 22);
                  Number (of_Z 2); Number (of_Z 4)];
               Selector.rss_field := Selector.legacy_col |} _).
  vm_compute. left. reflexivity.
Defined.

(** X18. [main_process] goes on to the processing only with a TRIX file,
    an output directory, a reference system (given or found from the
    city) and a results directory that does not exist yet. Without a file
    or a directory it shows one warning and changes nothing. With both,
    but an existing results directory or no way to a reference system, it
    records the results directory in [output_direcory] and stops before
    the processing: the outcome does not depend on the processing, no
    directory is made, and when the dialog holds a reference system the
    call ends without any message. *)
Theorem main_process_guards (current_datetime : string)
    (path_join : string -> string -> string) (path_exists : string -> bool)
    (processing processing' : Plugin.session -> option string -> Plugin.run)
    (s : Plugin.session) (d : Plugin.dialog) :
  let dir := path_join (Plugin.out_dir d)
               ("met_mast_process_results_" ++ current_datetime)%string in
  let r := Plugin.main_process current_datetime path_join path_exists
             processing s d in
  (Plugin.trix_file d = "" \/ Plugin.out_dir d = "" ->
   Plugin.final r = s /\ Plugin.raised r = None /\
   exists m, Plugin.shown r = [Plugin.display_warning m]) /\
  (Plugin.trix_file d <> "" -> Plugin.out_dir d <> "" ->
   path_exists dir = true \/
   (Plugin.crs d = "" /\
    (Plugin.country_input d = "" \/ Plugin.city_input d = "")) ->
   Plugin.final r = Plugin.set_output_direcory s dir /\
   r = Plugin.main_process current_datetime path_join path_exists
         processing' s d /\
   (forall ev, In ev (Plugin.shown r) ->
      ev = Plugin.display_warning "Specify Project City OR CRS") /\
   (Plugin.crs d <> "" -> r = Plugin.done (Plugin.set_output_direcory s dir) [])).
Proof.
  cbv zeta. unfold Plugin.main_process. split.
  - intros H.
    destruct (String.eqb_spec (Plugin.trix_file d) "") as [E1|E1]; cbn [negb];
      [split; [reflexivity | split; [reflexivity | eexists; reflexivity]] | ].
    destruct (String.eqb_spec (Plugin.out_dir d) "") as [E2|E2]; cbn [negb];
      [split; [reflexivity | split; [reflexivity | eexists; reflexivity]]
      | destruct H; contradiction].
  - intros E1 E2 H.
    destruct (String.eqb_spec (Plugin.trix_file d) ""); [tauto | ].
    destruct (String.eqb_spec (Plugin.out_dir d) ""); [tauto | ].
    cbn [negb].
    set (dir := path_join (Plugin.out_dir d)
                  ("met_mast_process_results_" ++ current_datetime)%string)
      in *.
    assert (W : forall ev,
              In ev [Plugin.display_warning "Specify Project City OR CRS"] ->
              ev = Plugin.display_warning "Specify Project City OR CRS")
      by (intros ev [<-|[]]; reflexivity).
    destruct (String.eqb_spec (Plugin.crs d) "") as [Ec|Ec].
    + destruct (String.eqb_spec (Plugin.country_input d) "") as [C1|C1];
        [ | destruct (String.eqb_spec (Plugin.city_input d) "") as [C2|C2] ];
        cbn [orb].
      * rewrite Ec. cbn. repeat split; auto. tauto.
      * rewrite Ec. cbn. repeat split; auto. tauto.
      * assert (P : path_exists dir = true) by tauto.
        destruct (Plugin.get_crs (Plugin.set_output_direcory s dir) d)
          as [c|exn]; cbn [bind].
        -- rewrite P. cbn [negb].
           destruct (Plugin.crs_given c); repeat split; auto;
             try (intros ev []); tauto.
        -- repeat split; auto; try (intros ev []); tauto.
    + assert (P : path_exists dir = true) by tauto.
      assert (Cg : Plugin.crs_given (Some (Plugin.crs d)) = true).
      { cbn [Plugin.crs_given].
        destruct (String.eqb_spec (Plugin.crs d) ""); [tauto | reflexivity]. }
      rewrite Cg, P. cbn [negb]. repeat split; auto. intros ev [].
Qed.

Lemma main_process_guards_witness :
  Plugin.main_process "2026-01-01_10-30" (fun a b => (a ++ "/" ++ b)%string)
    (fun _ => true) (fun s _ => Plugin.fails s [] "RuntimeError")
    sample_session (sample_dialog "EPSG:2154" "Paris" "Single") =
  Plugin.done
    (Plugin.set_output_direcory sample_session
       "out/met_mast_process_results_2026-01-01_10-30") [].
Proof.
  destruct (main_process_guards "2026-01-01_10-30"
              (fun a b => (a ++ "/" ++ b)%string) (fun _ => true)
              (fun s _ => Plugin.fails s [] "RuntimeError")
              (fun s _ => Plugin.fails s [] "RuntimeError")
              sample_session (sample_dialog "EPSG:2154" "Paris" "Single"))
    as (_ & A).
  assert (E1 : Plugin.trix_file (sample_dialog "EPSG:2154" "Paris" "Single")
               <> "") by discriminate.
  assert (E2 : Plugin.out_dir (sample_dialog "EPSG:2154" "Paris" "Single")
               <> "") by discriminate.
  assert (E3 : Plugin.crs (sample_dialog "EPSG:2154" "Paris" "Single")
               <> "") by discriminate.
  destruct (A E1 E2 (or_introl eq_refl)) as (_ & _ & _ & B).
  exact (B E3).
Defined.

(** ** The layers built from the files of the aggregator *)

Section LayerFacts.
Variable py_float : string -> option float64.

Lemma float_of_field_raise (c : cell) (e : string) :
  Plugin.float_of_field py_float c = Raise e -> e = "ValueError".
Proof.
  destruct c as [v|t]; cbn [Plugin.float_of_field].
  - destruct (is_nan v); [now intros [= <-] | discriminate].
  - destruct (py_float t); [discriminate | now intros [= <-]].
Qed.

Lemma float_of_field_nan (c : cell) (v : float64) :
  Plugin.float_of_field py_float c = Ok v -> cell_is_nan c = false.
Proof.
  destruct c as [w|t]; cbn [Plugin.float_of_field cell_is_nan];
    [ | reflexivity].
  now destruct (is_nan w).
Qed.

Lemma read_turbines_cases (rows : list key4) :
  match Plugin.read_turbines py_float rows with
  | Ok ts =>
      List.length ts = List.length rows /\
      forall k, In k rows -> key4_has_nan k = false
  | Raise e => e = "ValueError"
  end.
Proof.
  induction rows as [|[[[cx cy] cz] crix] rows IH];
    cbn [Plugin.read_turbines]; [split; [reflexivity | intros k []] | ].
  destruct (Plugin.float_of_field py_float cx) as [x|e] eqn:Ex; cbn [bind];
    [ | exact (float_of_field_raise _ _ Ex)].
  destruct (Plugin.float_of_field py_float cy) as [y|e] eqn:Ey; cbn [bind];
    [ | exact (float_of_field_raise _ _ Ey)].
  destruct (Plugin.float_of_field py_float cz) as [z|e] eqn:Ez; cbn [bind];
    [ | exact (float_of_field_raise _ _ Ez)].
  destruct (Plugin.float_of_field py_float crix) as [rix|e] eqn:Er;
    cbn [bind]; [ | exact (float_of_field_raise _ _ Er)].
  destruct (Plugin.read_turbines py_float rows) as [ts|e]; cbn [bind];
    [ | exact IH].
  destruct IH as (L & N). split; [cbn [List.length]; now rewrite L | ].
  intros k [<-|H]; [ | now apply N].
  cbn [key4_has_nan].
  now rewrite (float_of_field_nan _ _ Ex), (float_of_field_nan _ _ Ey),
              (float_of_field_nan _ _ Ez), (float_of_field_nan _ _ Er).
Qed.

Lemma turbine_features_ids (idx : nat) (ts : list Plugin.turbine) :
  map Plugin.tf_turbine_id (Plugin.turbine_features idx ts) =
    map (fun i => ("WTG_" ++ format_02d i)%string) (seq idx (List.length ts)) /\
  map Plugin.tf_id (Plugin.turbine_features idx ts) =
    seq idx (List.length ts).
Proof.
  revert idx. induction ts as [|t ts IH]; intros idx;
    cbn [Plugin.turbine_features map seq List.length Plugin.tf_turbine_id
         Plugin.tf_id]; [now split | ].
  destruct (IH (S idx)) as (-> & ->). now split.
Qed.

Lemma map_snd_combine_same {K V : Type} (ks : list K) (vs : list V) :
  List.length ks = List.length vs -> map snd (combine ks vs) = vs.
Proof.
  revert vs. induction ks as [|k t IH]; intros [|v vs]; simpl;
    try discriminate; try reflexivity.
  intros [= L]. now rewrite IH.
Qed.

Lemma make_ids_from_one (prefix : string) (n : nat) :
  make_ids prefix n = map (fun i => (prefix ++ format_02d i)%string) (seq 1 n).
Proof.
  unfold make_ids. rewrite <- seq_shift, map_map.
  apply map_ext. intros i. now rewrite Nat.add_1_r.
Qed.

End LayerFacts.

(** X19. The turbine layer numbers the turbines as the aggregator named
    them: built from the table of unique turbines the aggregator writes,
    the features carry, in order, the numbers 1, 2, ... and the very
    [turbine_id]s of that table. The only exception reading the table can
    raise is [ValueError], and it does whenever a turbine of the input has
    a missing (NaN) coordinate or RIX. *)
Theorem turbine_layer_matches_aggregator (py_float : string -> option float64)
    (df : list row) :
  let ut := Aggregator.unique_turbines (Aggregator.aggregate df) in
  let res := Plugin.create_turbine_shapefile py_float (map fst ut) in
  (forall feats, res = Ok feats ->
     map Plugin.tf_turbine_id feats = map snd ut /\
     map Plugin.tf_id feats = seq 1 (List.length ut)) /\
  (forall exn, res = Raise exn -> exn = "ValueError") /\
  ((exists r, In r df /\ key4_has_nan (turbine_cols r) = true) ->
   res = Raise "ValueError").
Proof.
  cbv zeta. rewrite aggregate_unique_turbines.
  set (keys := drop_duplicates key4_eq_dec (map turbine_cols df)).
  assert (U : Aggregator.unique_turbines (Aggregator.aggregate df) =
              combine keys (make_ids "WTG_" (List.length keys)))
    by reflexivity.
  rewrite U. clear U.
  rewrite map_snd_combine_same by now rewrite make_ids_length.
  rewrite length_combine, make_ids_length, Nat.min_id.
  unfold Plugin.create_turbine_shapefile.
  pose proof (read_turbines_cases py_float keys) as C.
  destruct (Plugin.read_turbines py_float keys) as [ts|e]; cbn [bind].
  - destruct C as (L & N). split; [ | split].
    + intros feats [= <-].
      destruct (turbine_features_ids 1 ts) as (-> & ->).
      rewrite L. split; [ | reflexivity].
      symmetry. apply make_ids_from_one.
    + discriminate.
    + intros (r & Hr & Hn). exfalso.
      assert (K : In (turbine_cols r) keys)
        by (apply drop_duplicates_In, in_map, Hr).
      rewrite (N _ K) in Hn. discriminate.
  - subst e. split; [discriminate | ]. split; [now intros exn [= <-] | ].
    reflexivity.
Qed.

Lemma turbine_layer_matches_aggregator_witness :
  Plugin.create_turbine_shapefile no_float
    (map fst (Aggregator.unique_turbines
                (Aggregator.aggregate
                   [reading 1 1 0 5;
                    row_uc (Number zero) (Number zero) (Number zero)
                           (Number zero);
                    {| wtg_x := Number nan; wtg_y := Number zero;
                       wtg_z := Number zero; wtg_rix := Number zero;
                       ref_x := Number zero; ref_y := Number zero;
                       ref_z := Number zero; ref_rix := Number zero;
                       horiz_uc_horiz := Number zero;
                       horizontal_distance := Number zero;
                       horiz_uc_vert := Number zero;
                       vertical_uc := Number zero |}]))) =
  Raise "ValueError".
Proof.
  destruct (turbine_layer_matches_aggregator no_float
              [reading 1 1 0 5;
               row_uc (Number zero) (Number zero) (Number zero) (Number zero);
               {| wtg_x := Number nan; wtg_y := Number zero;
                  wtg_z := Number zero; wtg_rix := Number zero;
                  ref_x := Number zero; ref_y := Number zero;
                  ref_z := Number zero; ref_rix := Number zero;
                  horiz_uc_horiz := Number zero;
                  horizontal_distance := Number zero;
                  horiz_uc_vert := Number zero;
                  vertical_uc := Number zero |}]) as (_ & _ & A).
  apply A. eexists. split; [right; right; left; reflexivity | reflexivity].
Defined.

Section MastLayerFacts.
Variable py_float : string -> option float64.

Lemma get_item_raise (nm : string) (r : list (string * cell)) (e : string) :
  Selector.get_item nm r = Raise e -> e = "KeyError".
Proof.
  induction r as [|[n v] r IH]; cbn [Selector.get_item];
    [now intros [= <-] | ].
  destruct (String.eqb nm n); [discriminate | exact IH].
Qed.

Lemma field_cases (nm : string) (data : Selector.table) (i : nat) :
  match (c <- Selector.get_item nm (Selector.loc data i) ;;
         Plugin.float_of_field py_float c) with
  | Ok _ => Selector.in_columns nm data = true
  | Raise e => e = "KeyError" \/ e = "ValueError"
  end.
Proof.
  destruct (Selector.get_item nm (Selector.loc data i)) as [c|e] eqn:G;
    cbn [bind].
  - destruct (Plugin.float_of_field py_float c) as [v|e] eqn:F.
    + destruct (get_item_loc_inv _ _ _ _ G) as (vs & Hc & _).
      exact (get_column_in_columns _ _ _ Hc).
    + right. exact (float_of_field_raise py_float _ _ F).
  - left. exact (get_item_raise _ _ _ G).
Qed.

Lemma mast_feature_cases (data : Selector.table) (i : nat) :
  match Plugin.mast_feature py_float data i with
  | Ok f =>
      List.length f = 5 /\
      Selector.in_columns "Reference Point X [m]" data = true /\
      Selector.in_columns "Reference Point Y [m]" data = true /\
      Selector.in_columns "Reference Point Z [m]" data = true /\
      Selector.in_columns "Reference RIX [%]" data = true /\
      Selector.in_columns Selector.adj_col data = true
  | Raise e => e = "KeyError" \/ e = "ValueError"
  end.
Proof.
  unfold Plugin.mast_feature.
  pose proof (field_cases "Reference Point X [m]" data i) as Hx.
  destruct (bind (Selector.get_item "Reference Point X [m]" _) _) as [x|e];
    cbn [bind]; [ | exact Hx].
  pose proof (field_cases "Reference Point Y [m]" data i) as Hy.
  destruct (bind (Selector.get_item "Reference Point Y [m]" _) _) as [y|e];
    cbn [bind]; [ | exact Hy].
  pose proof (field_cases "Reference Point Z [m]" data i) as Hz.
  destruct (bind (Selector.get_item "Reference Point Z [m]" _) _) as [z|e];
    cbn [bind]; [ | exact Hz].
  pose proof (field_cases "Reference RIX [%]" data i) as Hr.
  destruct (bind (Selector.get_item "Reference RIX [%]" _) _) as [rix|e];
    cbn [bind]; [ | exact Hr].
  pose proof (field_cases "adj_RSS_uncertainty" data i) as Hu.
  destruct (bind (Selector.get_item "adj_RSS_uncertainty" _) _) as [u|e];
    cbn [bind]; [ | exact Hu].
  repeat split; assumption.
Qed.

Lemma mast_features_cases (data : Selector.table) (rows : list nat) :
  match Plugin.mast_features py_float data rows with
  | Ok fs =>
      List.length fs = List.length rows /\
      Forall (fun f => List.length f = 5) fs /\
      (rows <> [] ->
       Selector.in_columns "Reference Point X [m]" data = true /\
       Selector.in_columns "Reference Point Y [m]" data = true /\
       Selector.in_columns "Reference Point Z [m]" data = true /\
       Selector.in_columns "Reference RIX [%]" data = true /\
       Selector.in_columns Selector.adj_col data = true)
  | Raise e => e = "KeyError" \/ e = "ValueError"
  end.
Proof.
  induction rows as [|i rows IH]; cbn [Plugin.mast_features].
  - split; [reflexivity | split; [constructor | congruence]].
  - pose proof (mast_feature_cases data i) as F.
    destruct (Plugin.mast_feature py_float data i) as [f|e]; cbn [bind];
      [ | exact F].
    destruct (Plugin.mast_features py_float data rows) as [fs|e]; cbn [bind];
      [ | exact IH].
    destruct IH as (L & A & _). destruct F as (F5 & F).
    split; [cbn [List.length]; now rewrite L | ].
    split; [now constructor | intros _; exact F].
Qed.

End MastLayerFacts.

(** X20. The layer of the met masts has no fallback on the former column
    name. When [create_met_mast_layer] returns, a reference system was
    given, there is one feature of five attributes for each record of the
    table and, if the table has a record at all, it has the four columns
    of the reference point and the column [adj_RSS_uncertainty]. A table
    of the former layout with at least one record, which the selection of
    the single mast accepts, makes it raise [KeyError], [ValueError] or
    [TypeError]. *)
Theorem met_mast_layer_needs_adjusted_column
    (py_float : string -> option float64) (data : Selector.table)
    (c : option string) :
  (forall feats,
     Plugin.create_met_mast_layer py_float data c = Ok feats ->
     c <> None /\
     List.length feats = Plugin.n_rows data /\
     Forall (fun f => List.length f = 5) feats /\
     (0 < Plugin.n_rows data ->
      Selector.in_columns "Reference Point X [m]" data = true /\
      Selector.in_columns "Reference Point Y [m]" data = true /\
      Selector.in_columns "Reference Point Z [m]" data = true /\
      Selector.in_columns "Reference RIX [%]" data = true /\
      Selector.in_columns Selector.adj_col data = true)) /\
  (Selector.in_columns Selector.adj_col data = false ->
   0 < Plugin.n_rows data ->
   exists exn,
     Plugin.create_met_mast_layer py_float data c = Raise exn /\
     (exn = "KeyError" \/ exn = "ValueError" \/ exn = "TypeError")).
Proof.
  unfold Plugin.create_met_mast_layer.
  pose proof (mast_features_cases py_float data (seq 0 (Plugin.n_rows data)))
    as M.
  assert (S : 0 < Plugin.n_rows data -> seq 0 (Plugin.n_rows data) <> []).
  { destruct (Plugin.n_rows data); [lia | discriminate]. }
  split.
  - intros feats H. destruct c as [t|]; [ | discriminate].
    rewrite H in M. destruct M as (L & F & C). rewrite length_seq in L.
    split; [discriminate | ]. split; [exact L | ]. split; [exact F | ].
    intros N. exact (C (S N)).
  - intros A N. destruct c as [t|]; [ | eauto].
    destruct (Plugin.mast_features py_float data _) as [fs|e].
    + destruct M as (_ & _ & C).
      destruct (C (S N)) as (_ & _ & _ & _ & C'). congruence.
    + exists e. split; [reflexivity | tauto].
Qed.

Lemma met_mast_layer_needs_adjusted_column_witness :
  Selector.process_best_single_met_mast legacy_table <>
    Raise "KeyError" /\
  exists exn,
    Plugin.create_met_mast_layer no_float legacy_table (Some "EPSG:32631") =
    Raise exn /\
    (exn = "KeyError" \/ exn = "ValueError" \/ exn = "TypeError").
Proof.
  split; [vm_compute; discriminate | ].
  destruct (met_mast_layer_needs_adjusted_column no_float legacy_table
              (Some "EPSG:32631")) as (_ & A).
  apply A; [reflexivity | vm_compute; lia].
Defined.

(** ** A city without a zone *)

Lemma single_crs_some (data : Selector.table) (t : string) :
  Plugin.process_best_single_met_mast_crs data (Some t) =
  Selector.process_best_single_met_mast data.
Proof.
  unfold Plugin.process_best_single_met_mast_crs,
         Selector.process_best_single_met_mast.
  destruct (Selector.get_column _ data) as [col|e]; cbn [bind];
    [ | reflexivity].
  destruct (Selector.idxmin col) as [i|e]; cbn [bind]; [ | reflexivity].
  destruct (Selector.get_item "Reference Point X [m]" _); cbn [bind];
    [ | reflexivity].
  destruct (Selector.get_item "Reference Point Y [m]" _); cbn [bind];
    reflexivity.
Qed.

Lemma single_crs_none (data : Selector.table) (o : Selector.single_output) :
  Plugin.process_best_single_met_mast_crs data None <> Ok o.
Proof.
  unfold Plugin.process_best_single_met_mast_crs.
  destruct (Selector.get_column _ data) as [col|e]; cbn [bind];
    [ | discriminate].
  destruct (Selector.idxmin col) as [i|e]; cbn [bind]; [ | discriminate].
  destruct (Selector.get_item "Reference Point X [m]" _); cbn [bind];
    [ | discriminate].
  destruct (Selector.get_item "Reference Point Y [m]" _); cbn [bind];
    discriminate.
Qed.

(** X21. For a city whose latitude has no zone, [get_crs] answers [None]
    and the two selections part ways. The single selection, which
    otherwise is the selection on the table alone, never returns: unless
    the layer is there already, the call ends in an exception, shows
    nothing and leaves the state as it was. The pair selection makes no
    use of the reference system: the call is the one made with any other
    answer of [get_crs]. *)
Theorem selection_without_zone (s : Plugin.session) (d : Plugin.dialog) :
  Plugin.output_direcory s <> None ->
  Plugin.crs d = "" ->
  Plugin.country_input d <> "" -> Plugin.city_input d <> "" ->
  Plugin.get_crs s d = Ok None ->
  (Plugin.comboBox d = "Single" ->
   Plugin.layer_exists s "Optimal_single_mest_mast" = false ->
   exists exn, Plugin.highlight_best_met s d = Plugin.fails s [] exn) /\
  (Plugin.comboBox d = "Pair" ->
   let r := Plugin.highlight_pair s in
   Plugin.highlight_best_met s d =
   {| Plugin.final := Plugin.final r; Plugin.shown := Plugin.shown r;
      Plugin.raised := Plugin.raised r |}) /\
  (forall data t,
     Plugin.process_best_single_met_mast_crs data (Some t) =
     Selector.process_best_single_met_mast data).
Proof.
  intros O Ec C1 C2 G.
  assert (R : Plugin.highlight_best_met s d = highlight_choice s d None).
  { destruct (Plugin.output_direcory s) as [dir|] eqn:Od; [ | congruence].
    apply (highlight_resolved s d dir None Od); auto.
    - now apply String.eqb_eq.
    - apply orb_false_iff. split; now apply String.eqb_neq. }
  rewrite R. unfold highlight_choice. split; [ | split].
  - intros -> L. cbn [String.eqb Ascii.eqb Bool.eqb andb].
    unfold Plugin.highlight_single. rewrite L. cbn [negb].
    destruct (Plugin.mast_points_data s) as [data|]; [ | eauto].
    pose proof (single_crs_none data) as N.
    destruct (Plugin.process_best_single_met_mast_crs data None) as [o|exn];
      [destruct (N o eq_refl) | eauto].
  - intros ->. cbn [String.eqb Ascii.eqb Bool.eqb andb].
    now destruct (Plugin.highlight_pair s).
  - exact single_crs_some.
Qed.

Lemma selection_without_zone_witness :
  (exists exn,
     Plugin.highlight_best_met polar_session (polar_dialog "Single") =
     Plugin.fails polar_session [] exn) /\
  Plugin.highlight_best_met polar_session (polar_dialog "Pair") =
  {| Plugin.final := Plugin.final (Plugin.highlight_pair polar_session);
     Plugin.shown := Plugin.shown (Plugin.highlight_pair polar_session);
     Plugin.raised := Plugin.raised (Plugin.highlight_pair polar_session) |}.
Proof.
  assert (O : Plugin.output_direcory polar_session <> None) by discriminate.
  assert (G : forall ch, Plugin.get_crs polar_session (polar_dialog ch) =
                         Ok None) by (intros ch; vm_compute; reflexivity).
  assert (C1 : forall ch, Plugin.country_input (polar_dialog ch) <> "")
    by discriminate.
  assert (C2 : forall ch, Plugin.city_input (polar_dialog ch) <> "")
    by discriminate.
  split.
  - destruct (selection_without_zone polar_session (polar_dialog "Single")
                O eq_refl (C1 _) (C2 _) (G _)) as (A & _).
    exact (A eq_refl eq_refl).
  - destruct (selection_without_zone polar_session (polar_dialog "Pair")
                O eq_refl (C1 _) (C2 _) (G _)) as (_ & A & _).
    exact (A eq_refl).
Defined.

(** X22. A longitude that is not a finite number ends
    [get_utm_crs_from_lonlat] in an exception whatever the latitude and
    the precision: [ValueError] on NaN, [OverflowError] on an infinite
    one. So [get_crs] raises [ValueError] for a city whose first row in
    the table has no longitude. *)
Theorem utm_crs_needs_finite_longitude (lon lat_ : float64) (precision : Z) :
  is_finite lon = false ->
  Plugin.get_utm_crs_from_lonlat lon lat_ precision =
    Raise (if is_nan lon then "ValueError" else "OverflowError") /\
  (forall s d pre r post,
     Plugin.cities_by_country s = pre ++ r :: post ->
     is_city (Plugin.country_input d) (Plugin.city_input d) r ->
     (forall r', In r' pre ->
        ~ is_city (Plugin.country_input d) (Plugin.city_input d) r') ->
     Plugin.lng r = lon ->
     Plugin.get_crs s d =
       Raise (if is_nan lon then "ValueError" else "OverflowError")).
Proof.
  intros F.
  assert (U : forall la p, Plugin.get_utm_crs_from_lonlat lon la p =
                Raise (if is_nan lon then "ValueError" else "OverflowError")).
  { intros la p. unfold Plugin.get_utm_crs_from_lonlat.
    destruct lon as [sg|sg| |sg m e]; try discriminate F.
    - destruct sg; reflexivity.
    - reflexivity. }
  split; [apply U | ].
  intros s d pre r post E C N L.
  pose proof (get_coordinates_first (Plugin.cities_by_country s)
                (Plugin.country_input d) (Plugin.city_input d)) as G.
  unfold Plugin.get_crs.
  destruct (Plugin.get_coordinates _ _ _) as [[x y]|].
  - destruct G as (pre' & r' & post' & E' & C' & X & N').
    assert (P : r' = r).
    { rewrite E in E'. clear - E' C C' N N'.
      revert pre' E' N'.
      induction pre as [|a pre IH]; intros [|b pre'] E' N'; cbn [app] in E'.
      - now injection E'.
      - injection E' as E1 _. subst. exfalso.
        exact (N' _ (or_introl eq_refl) C).
      - injection E' as E1 _. subst. exfalso.
        exact (N _ (or_introl eq_refl) C').
      - injection E' as E1 E'. subst.
        exact (IH (fun x Hx => N x (or_intror Hx)) pre' E'
                  (fun x Hx => N' x (or_intror Hx))). }
    subst r'. injection X as -> ->. rewrite L. apply U.
  - exfalso. apply (G r); [ | exact C].
    rewrite E. apply in_app_iff. right. now left.
Qed.

Lemma utm_crs_needs_finite_longitude_witness :
  Plugin.get_utm_crs_from_lonlat nan (of_Z 48) 5 = Raise "ValueError".
Proof.
  destruct (utm_crs_needs_finite_longitude nan (of_Z 48) 5 eq_refl) as (A & _).
  exact A.
Defined.
